(** * RedirectWise: redirect-chain capture and scoring, shallow embedding

    Sources embedded here:
    - [src/types/redirect.ts]: [getStatusObject], [calculateChainScore];
    - the background part of [src/entrypoints/sidepanel/Sidepanel.tsx]:
      [getOrCreateTabPath], [clearTabPath], [addRedirectItem],
      [parseHeaders], [getRedirectType], [getLocationHeader] and the event
      listeners registered in [defineBackground];
    - the storage utilities of [src/utils/pdf-export.ts]: [getHistory],
      [saveHistoryEntry], [deleteHistoryEntry], [updateHistoryEntry],
      [clearHistory], [getSettings], [saveSettings] and [getHistoryStats].

    Conventions.  JS numbers that the code uses as integers (status codes,
    tab ids, epoch milliseconds, scores) are [Z].  JS strings are Rocq
    [string]s; [toLowerCase] is modelled on ASCII letters.  The module-level
    [Map]s are stdpp [gmap]s.  [Date.now()] is the [now] field of the event
    that is being handled (a listener runs to its first [await] without
    yielding); [generateId()] is the [rid] field of the event. *)

From Stdlib Require Import ZArith Ascii String Lia.
From stdpp Require Import base gmap list strings pretty.

Open Scope Z_scope.

(* ------------------------------------------------------------------ *)
(** ** Data model ([src/types/redirect.ts]) *)

Record RedirectHeader := mkHeader {
  h_name : string;
  h_value : string;
}.

Inductive ItemType := navigation | server_redirect | client_redirect.

Inductive RedirectType := permanent | temporary | meta | javascript | hsts.

Record RedirectTiming := mkTiming {
  startTime : Z;
  endTime : Z;
  duration : Z;
}.

Record StatusObject := mkStatusObject {
  isSuccess : bool;
  isRedirect : bool;
  isClientError : bool;
  isServerError : bool;
  classes : list string;
}.

Record RedirectItem := mkItem {
  id : string;
  url : string;
  status_code : Z;
  status_line : string;
  ip : string;
  type : ItemType;
  redirect_type : option RedirectType;
  redirect_url : option string;
  headers : list RedirectHeader;
  timestamp : Z;
  timing : option RedirectTiming;
  statusObject : StatusObject;
}.

Record TabRedirectPath := mkTabPath {
  tabId : Z;
  path : list RedirectItem;
  tp_startTime : Z;
}.

Inductive IssueKind := warning | error | info.
Inductive Impact := high | medium | low.

Record ChainIssue := mkIssue {
  issue_type : IssueKind;
  message : string;
  impact : Impact;
}.

Inductive Grade := A | B | C | D | F.

Record ChainScore := mkChainScore {
  score : Z;
  grade : Grade;
  issues : list ChainIssue;
  recommendations : list string;
}.

(** The in-place update [item.ip = ...] of the IP backfill. *)
Definition set_ip (h : RedirectItem) (v : string) : RedirectItem :=
  mkItem (id h) (url h) (status_code h) (status_line h) v (type h)
    (redirect_type h) (redirect_url h) (headers h) (timestamp h) (timing h)
    (statusObject h).

(* ------------------------------------------------------------------ *)
(** ** JS string helpers *)

(** [String.prototype.toLowerCase] on ASCII. *)
Definition ascii_to_lower (c : ascii) : ascii :=
  let n := nat_of_ascii c in
  if (65 <=? n)%nat && (n <=? 90)%nat then ascii_of_nat (n + 32) else c.

Fixpoint toLowerCase (s : string) : string :=
  match s with
  | EmptyString => EmptyString
  | String c t => String (ascii_to_lower c) (toLowerCase t)
  end.

(** [s.startsWith(p)]. *)
Definition startsWith (s p : string) : bool := String.prefix p s.

(** [s.split('?')[0]]: the part of [s] before its first ['?']. *)
Fixpoint split_q_0 (s : string) : string :=
  match s with
  | EmptyString => EmptyString
  | String c t => if Ascii.eqb c "?"%char then EmptyString
                  else String c (split_q_0 t)
  end.

(** Template-literal interpolation of an integer. *)
Definition showZ (z : Z) : string := pretty z.
Definition showN (n : nat) : string := pretty n.

(* ------------------------------------------------------------------ *)
(** ** [getStatusObject] *)

Definition getStatusObject (statusCode : Z) : StatusObject :=
  let isSuccess := (200 <=? statusCode) && (statusCode <? 300) in
  let isRedirect := (300 <=? statusCode) && (statusCode <? 400) in
  let isClientError := (400 <=? statusCode) && (statusCode <? 500) in
  let isServerError := 500 <=? statusCode in
  let classes :=
    (if isSuccess then ["status-success"] else []) ++
    (if isRedirect then ["status-redirect"] else []) ++
    (if isClientError then ["status-client-error"] else []) ++
    (if isServerError then ["status-server-error"] else []) in
  mkStatusObject isSuccess isRedirect isClientError isServerError classes.

(* ------------------------------------------------------------------ *)
(** ** [getRedirectType] and [getLocationHeader] *)

Definition getRedirectType (statusCode : Z) (hs : list RedirectHeader)
    : RedirectType :=
  let hstsHeader :=
    if statusCode =? 307 then
      List.find (fun h => String.eqb (toLowerCase (h_name h))
                            "non-authoritative-reason" &&
                          String.eqb (h_value h) "HSTS") hs
    else None in
  match hstsHeader with
  | Some _ => hsts
  | None =>
      if (statusCode =? 301) || (statusCode =? 308) then permanent
      else temporary
  end.

Definition getLocationHeader (hs : list RedirectHeader) : option string :=
  option_map h_value
    (List.find (fun h => String.eqb (toLowerCase (h_name h)) "location") hs).

(* ------------------------------------------------------------------ *)
(** ** [calculateChainScore] *)

Definition is_redirect_kind (p : RedirectItem) : bool :=
  match type p with
  | server_redirect | client_redirect => true
  | navigation => false
  end.

Definition is_client_redirect (p : RedirectItem) : bool :=
  match type p with client_redirect => true | _ => false end.

Definition is_temp_code (p : RedirectItem) : bool :=
  (status_code p =? 302) || (status_code p =? 307).

Definition is_error_code (p : RedirectItem) : bool := 400 <=? status_code p.

Definition is_http (p : RedirectItem) : bool := startsWith (url p) "http://".

(** [x?.status_code === n]: [undefined] equals no number. *)
Definition js_eq_num (o : option Z) (n : Z) : bool :=
  match o with Some x => x =? n | None => false end.

Definition grade_of (score : Z) : Grade :=
  if 90 <=? score then A
  else if 75 <=? score then B
  else if 60 <=? score then C
  else if 40 <=? score then D
  else F.

(** The body of [calculateChainScore], one [let] per statement; [issues]
    and [recommendations] are the arrays pushed to in order. *)
Definition calculateChainScore (path : list RedirectItem) : ChainScore :=
  let issues0 : list ChainIssue := [] in
  let recs0 : list string := [] in
  let score0 : Z := 100 in
  let redirectCount := length (List.filter is_redirect_kind path) in
  let score1 :=
    if (0 <? redirectCount)%nat then score0 - Z.of_nat redirectCount * 10
    else score0 in
  (* too many redirects *)
  let '(issues1, recs1, score2) :=
    if (3 <? redirectCount)%nat then
      (issues0 ++ [mkIssue error
         ("Too many redirects (" ++ showN redirectCount ++
          "). Each redirect loses ~15% link equity.")%string high],
       recs0 ++ ["Reduce redirect chain to maximum 2 hops"%string],
       score1 - 15)
    else if (1 <? redirectCount)%nat then
      (issues0 ++ [mkIssue warning
         (showN redirectCount ++ " redirects in chain. Consider reducing.")%string
         medium],
       recs0, score1)
    else (issues0, recs0, score1) in
  (* temporary redirects *)
  let tempRedirects := List.filter is_temp_code path in
  let '(issues2, recs2, score3) :=
    if (0 <? length tempRedirects)%nat then
      (issues1 ++ [mkIssue warning
         (showN (length tempRedirects) ++
          " temporary redirect(s) found. Consider using 301 for permanent moves.")%string
         medium],
       recs1 ++ ["Change 302 redirects to 301 if the move is permanent"%string],
       score2 - Z.of_nat (length tempRedirects) * 5)
    else (issues1, recs1, score2) in
  (* client-side redirects *)
  let clientRedirects := List.filter is_client_redirect path in
  let '(issues3, recs3, score4) :=
    if (0 <? length clientRedirects)%nat then
      (issues2 ++ [mkIssue error
         (showN (length clientRedirects) ++
          " client-side redirect(s) detected. These are bad for SEO.")%string
         high],
       recs2 ++ ["Replace JavaScript/meta redirects with server-side 301 redirects"%string],
       score3 - Z.of_nat (length clientRedirects) * 15)
    else (issues2, recs2, score3) in
  (* 4xx / 5xx *)
  let errors := List.filter is_error_code path in
  let '(issues4, score5) :=
    if (0 <? length errors)%nat then
      (issues3 ++ [mkIssue error
         (showN (length errors) ++ " error response(s) in chain.")%string high],
       score4 - Z.of_nat (length errors) * 20)
    else (issues3, score4) in
  (* HTTPS *)
  let hasHttp := List.existsb is_http path in
  let '(issues5, recs5, score6) :=
    if hasHttp then
      (issues4 ++ [mkIssue warning "Non-HTTPS URL detected in chain." medium],
       recs3 ++ ["Ensure all URLs use HTTPS"%string],
       score5 - 10)
    else (issues4, recs3, score5) in
  (* bonus *)
  let issues6 :=
    if (redirectCount =? 0)%nat && (length issues5 =? 0)%nat then
      issues5 ++ [mkIssue info "Perfect! Direct access with no redirects." low]
    else if (redirectCount =? 1)%nat then
      let redirectItem := List.find is_redirect_kind path in
      let rcode := option_map status_code redirectItem in
      if js_eq_num rcode 301 || js_eq_num rcode 308 then
        issues5 ++ [mkIssue info "Good! Single permanent redirect." low]
      else issues5
    else issues5 in
  let score7 := Z.max 0 (Z.min 100 score6) in
  mkChainScore score7 (grade_of score7) issues6 recs5.

(* ------------------------------------------------------------------ *)
(** ** Background state ([Sidepanel.tsx], module level and the closure of
    [defineBackground]) *)

Record State := mkState {
  tabPaths : gmap Z TabRedirectPath;
  requestTimings : gmap string Z;
  requestIPs : gmap string string;
  pendingNavigations : gmap Z string;
}.

Definition TIMING_MAX_AGE : Z := 60000.

(** [`${tabId}-${url}`] *)
Definition requestKey (tabId : Z) (u : string) : string :=
  (showZ tabId +:+ "-" +:+ u)%string.

(** JS truthiness of an optional string ([undefined] and [""] are falsy). *)
Definition truthy (o : option string) : option string :=
  match o with
  | Some v => if String.eqb v "" then None else Some v
  | None => None
  end.

Definition set_tabPaths (s : State) (m : gmap Z TabRedirectPath) : State :=
  mkState m (requestTimings s) (requestIPs s) (pendingNavigations s).
Definition set_requestTimings (s : State) (m : gmap string Z) : State :=
  mkState (tabPaths s) m (requestIPs s) (pendingNavigations s).
Definition set_requestIPs (s : State) (m : gmap string string) : State :=
  mkState (tabPaths s) (requestTimings s) m (pendingNavigations s).
Definition set_pendingNavigations (s : State) (m : gmap Z string) : State :=
  mkState (tabPaths s) (requestTimings s) (requestIPs s) m.

(** [getOrCreateTabPath]: the chain of the tab, created empty if absent. *)
Definition getOrCreateTabPath (s : State) (tid : Z) (now : Z)
    : TabRedirectPath :=
  match tabPaths s !! tid with
  | Some tp => tp
  | None => mkTabPath tid [] now
  end.

(** [clearTabPath] *)
Definition clearTabPath (s : State) (tid : Z) (now : Z) : State :=
  set_tabPaths s (<[tid := mkTabPath tid [] now]> (tabPaths s)).

(** The [Partial<RedirectItem>] the call sites pass to [addRedirectItem]:
    [url], [status_code], [status_line], [type] and [headers] are always
    given; [ip], [redirect_type] and [redirect_url] may be [undefined]. *)
Record ItemIn := mkItemIn {
  in_url : string;
  in_status_code : Z;
  in_status_line : string;
  in_ip : option string;
  in_type : ItemType;
  in_redirect_type : option RedirectType;
  in_redirect_url : option string;
  in_headers : list RedirectHeader;
}.

(** The values the successive [Date.now()] calls of one [addRedirectItem]
    call return, in source order: the one in [getOrCreateTabPath] (made
    only when the tab has no chain), the fallback start time
    [requestTimings.get(requestKey) || Date.now()] (made only when no
    usable start is recorded), [endTime], and the item's [timestamp].  The
    clock may advance between any two of them. *)
Record AddClock := mkAddClock {
  clk_create : Z;
  clk_start : Z;
  clk_end : Z;
  clk_stamp : Z;
}.

(** [addRedirectItem]: [clk] gives the [Date.now()] readings,
    [rid] is [generateId()]. *)
Definition addRedirectItem (s : State) (tid : Z) (item : ItemIn)
    (clk : AddClock) (rid : string) : State :=
  let tabPath := getOrCreateTabPath s tid (clk_create clk) in
  let key := requestKey tid (in_url item) in
  let startTime :=
    match requestTimings s !! key with
    | Some t => if t =? 0 then clk_start clk else t
    | None => clk_start clk
    end in
  let endTime := clk_end clk in
  let fullItem :=
    mkItem rid (in_url item) (in_status_code item) (in_status_line item)
      (match truthy (in_ip item) with Some v => v | None => "Unknown" end)
      (in_type item) (in_redirect_type item) (in_redirect_url item)
      (in_headers item) (clk_stamp clk)
      (Some (mkTiming startTime endTime (endTime - startTime)))
      (getStatusObject (in_status_code item)) in
  let tabPath' := mkTabPath (tabId tabPath) (path tabPath ++ [fullItem])
                    (tp_startTime tabPath) in
  mkState (<[tid := tabPath']> (tabPaths s))
    (delete key (requestTimings s)) (requestIPs s) (pendingNavigations s).

(** [parseHeaders] *)
Definition parseHeaders (hs : list (string * option string))
    : list RedirectHeader :=
  map (fun h => mkHeader h.1 (match h.2 with Some v => v | None => "" end)) hs.

(** [tabPath.path.find(p => p.url === url && p.ip === 'Unknown')] followed
    by [item.ip = ip]: the first matching hop is updated in place. *)
Fixpoint backfill_ip (u v : string) (l : list RedirectItem)
    : list RedirectItem :=
  match l with
  | [] => []
  | h :: t =>
      if String.eqb (url h) u && String.eqb (ip h) "Unknown"
      then set_ip h v :: t
      else h :: backfill_ip u v t
  end.

Definition backfill_tab (s : State) (tid : Z) (u v : string) : State :=
  match tabPaths s !! tid with
  | Some tp =>
      set_tabPaths s (<[tid := mkTabPath (tabId tp) (backfill_ip u v (path tp))
                                 (tp_startTime tp)]> (tabPaths s))
  | None => s
  end.

(** The [isNewNavigation] test of [onBeforeNavigate]. *)
Definition isNewNavigation (s : State) (tid : Z) (u : string) : bool :=
  match tabPaths s !! tid with
  | None => true
  | Some cur =>
      match path cur with
      | [] => true
      | first :: _ =>
          let pre := split_q_0 (url first) in
          negb (startsWith u (if String.eqb pre "" then "" else pre))
      end
  end.

(** The query answered for [{name: 'getTabPath', tabId}]. *)
Definition getTabPath (s : State) (tid : Z) : list RedirectItem :=
  match tabPaths s !! tid with
  | Some tp => path tp
  | None => []
  end.

(** Browser events and the messages that mutate state.  [rtype] is
    [details.type], [frameId] is [details.frameId]. *)
Inductive Event :=
  | onBeforeRequest (tid : Z) (u : string) (rtype : string) (now : Z)
  | onResponseStarted (tid : Z) (u : string) (rtype : string)
      (dip : option string)
  | onBeforeNavigate (tid : Z) (frameId : Z) (u : string) (now : Z)
  | onHeadersReceived (tid : Z) (u : string) (rtype : string)
      (statusCode : Z) (statusLine : string)
      (responseHeaders : option (list (string * option string)))
      (dip : option string) (clk : AddClock) (rid : string)
  | onCompleted (tid : Z) (u : string) (rtype : string) (dip : option string)
  | navigationCompleted (tid : Z) (frameId : Z) (u : string) (clk : AddClock)
      (rid : string)
  | tabRemoved (tid : Z)
  | msgClearTabPath (tid : Z) (now : Z)
  | timingCleanup (now : Z).

Definition is_main_frame (rtype : string) : bool := String.eqb rtype "main_frame".

Definition step (s : State) (e : Event) : State :=
  match e with
  | onBeforeRequest tid u rtype now =>
      if negb (is_main_frame rtype) then s
      else set_requestTimings s (<[requestKey tid u := now]> (requestTimings s))
  | onResponseStarted tid u rtype dip =>
      if negb (is_main_frame rtype) then s
      else match truthy dip with
           | Some v =>
               let s1 := set_requestIPs s (<[requestKey tid u := v]> (requestIPs s)) in
               backfill_tab s1 tid u v
           | None => s
           end
  | onBeforeNavigate tid frameId u now =>
      if negb (frameId =? 0) then s
      else if isNewNavigation s tid u then
        let s1 := clearTabPath s tid now in
        set_pendingNavigations s1 (<[tid := u]> (pendingNavigations s1))
      else s
  | onHeadersReceived tid u rtype statusCode statusLine rh dip clk rid =>
      if negb (is_main_frame rtype) then s
      else
        let hs := parseHeaders (match rh with Some l => l | None => [] end) in
        let isRedirect := (300 <=? statusCode) && (statusCode <? 400) in
        let redirectUrl := if isRedirect then getLocationHeader hs else None in
        let key := requestKey tid u in
        let dip' :=
          match truthy dip with
          | Some v => v
          | None =>
              match truthy (requestIPs s !! key) with
              | Some v => v
              | None => "Unknown"
              end
          end in
        let s1 := addRedirectItem s tid
          (mkItemIn u statusCode statusLine (Some dip')
             (if isRedirect then server_redirect else navigation)
             (if isRedirect then Some (getRedirectType statusCode hs) else None)
             redirectUrl hs) clk rid in
        set_requestIPs s1 (delete key (requestIPs s1))
  | onCompleted tid u rtype dip =>
      if negb (is_main_frame rtype) then s
      else match truthy dip with
           | Some v => backfill_tab s tid u v
           | None => s
           end
  | navigationCompleted tid frameId u clk rid =>
      if negb (frameId =? 0) then s
      else
        let s1 := set_pendingNavigations s (delete tid (pendingNavigations s)) in
        match tabPaths s1 !! tid with
        | Some tp =>
            match path tp with
            | [] => addRedirectItem s1 tid
                      (mkItemIn u 200 "HTTP/1.1 200 OK" None navigation None None [])
                      clk rid
            | _ :: _ => s1
            end
        | None => addRedirectItem s1 tid
                    (mkItemIn u 200 "HTTP/1.1 200 OK" None navigation None None [])
                    clk rid
        end
  | tabRemoved tid =>
      (* two [chrome.tabs.onRemoved] listeners, both delete the chain *)
      set_tabPaths s (delete tid (delete tid (tabPaths s)))
  | msgClearTabPath tid now => clearTabPath s tid now
  | timingCleanup now =>
      set_requestTimings s
        (filter (fun kt => ~ (now - kt.2 > TIMING_MAX_AGE)) (requestTimings s))
  end.

(* ================================================================== *)
(** * Properties *)

Ltac zcases :=
  repeat match goal with
  | |- context [?a <=? ?b] => destruct (Z.leb_spec a b)
  | |- context [?a <? ?b] => destruct (Z.ltb_spec a b)
  end.

Definition b2n (b : bool) : nat := if b then 1%nat else 0%nat.

(** ** Status classifier *)

(** C4: [getStatusObject c] sets [isSuccess] iff [200 <= c < 300],
    [isRedirect] iff [300 <= c < 400], [isClientError] iff [400 <= c < 500]
    and [isServerError] iff [c >= 500]; exactly one flag is set on
    [200..599], none below 200, and only [isServerError] from 600 on. *)
Theorem getStatusObject_classes (c : Z) :
  let o := getStatusObject c in
  (isSuccess o = true <-> 200 <= c < 300) /\
  (isRedirect o = true <-> 300 <= c < 400) /\
  (isClientError o = true <-> 400 <= c < 500) /\
  (isServerError o = true <-> c >= 500) /\
  (200 <= c <= 599 ->
     (b2n (isSuccess o) + b2n (isRedirect o) + b2n (isClientError o)
      + b2n (isServerError o) = 1)%nat) /\
  (c < 200 ->
     isSuccess o = false /\ isRedirect o = false /\
     isClientError o = false /\ isServerError o = false) /\
  (c >= 600 ->
     isSuccess o = false /\ isRedirect o = false /\
     isClientError o = false /\ isServerError o = true).
Proof.
  cbn. zcases; cbn; repeat split; intros; try discriminate; try lia; auto.
Qed.

(** ** Redirect type *)

(** A header announcing an HSTS upgrade: its name, lower-cased, is
    [non-authoritative-reason] and its value is exactly [HSTS]. *)
Definition hsts_header (h : RedirectHeader) : Prop :=
  toLowerCase (h_name h) = "non-authoritative-reason" /\ h_value h = "HSTS".

Lemma find_some_Exists {T} (p : T -> bool) (l : list T) :
  (exists x, List.find p l = Some x) <-> Exists (fun x => p x = true) l.
Proof.
  induction l as [|a l IH]; simpl.
  - split; [intros [x Hx]; discriminate | intros H; inversion H].
  - destruct (p a) eqn:Ha.
    + split; [intros _; constructor; exact Ha | intros _; eauto].
    + rewrite IH. split; intros H.
      * constructor 2. exact H.
      * inversion H; subst; [congruence | assumption].
Qed.

Lemma hsts_find_Exists (hs : list RedirectHeader) :
  (exists x, List.find (fun h => String.eqb (toLowerCase (h_name h))
                           "non-authoritative-reason" &&
                         String.eqb (h_value h) "HSTS") hs = Some x)
  <-> Exists hsts_header hs.
Proof.
  rewrite find_some_Exists.
  split; intros H; (eapply Exists_impl; [exact H|]); intros h;
    unfold hsts_header; rewrite andb_true_iff, !String.eqb_eq; tauto.
Qed.

(** C5: [getRedirectType] returns [hsts] iff the code is 307 and a header
    named (case-insensitively) [non-authoritative-reason] has value [HSTS];
    otherwise [permanent] iff the code is 301 or 308; otherwise
    [temporary]. *)
Theorem getRedirectType_spec (code : Z) (hs : list RedirectHeader) :
  (getRedirectType code hs = hsts <-> code = 307 /\ Exists hsts_header hs) /\
  (getRedirectType code hs = permanent <->
     ~ (code = 307 /\ Exists hsts_header hs) /\ (code = 301 \/ code = 308)) /\
  (getRedirectType code hs = temporary <->
     ~ (code = 307 /\ Exists hsts_header hs) /\ code <> 301 /\ code <> 308).
Proof.
  rewrite <- hsts_find_Exists. unfold getRedirectType.
  destruct (Z.eqb_spec code 307) as [->|Hne].
  - simpl. destruct (List.find _ hs) eqn:Hf.
    + assert (HE : exists x, Some r = Some x) by eauto.
      repeat split; intros; try discriminate; eauto; tauto.
    + assert (HE : ~ exists x, @None RedirectHeader = Some x)
        by (intros [x Hx]; discriminate).
      repeat split; intros; try discriminate; try tauto; lia.
  - assert (Hne' : ~ (code = 307 /\ exists x, List.find (fun h =>
        String.eqb (toLowerCase (h_name h)) "non-authoritative-reason" &&
        String.eqb (h_value h) "HSTS") hs = Some x)) by tauto.
    destruct (Z.eqb_spec code 301), (Z.eqb_spec code 308); simpl;
      repeat split; intros; try discriminate; try tauto; try lia.
Qed.

(** ** Chain health score *)

(** C3 (as the claim states it, refuted): scoring the empty chain does not
    return an empty issue list. *)
Lemma calculateChainScore_nil_not_issue_free :
  ~ (score (calculateChainScore []) = 100 /\
     grade (calculateChainScore []) = A /\
     issues (calculateChainScore []) = []).
Proof. vm_compute. intros [_ [_ H]]. discriminate. Qed.

(** C3 (amended): scoring the empty chain gives score 100, grade A, no
    recommendation and exactly one issue, the info "Perfect! Direct access
    with no redirects." (the empty chain has no redirect and no other
    issue, so the bonus message of step 8 is added). *)
Theorem calculateChainScore_nil :
  calculateChainScore [] =
  mkChainScore 100 A
    [mkIssue info "Perfect! Direct access with no redirects." low] [].
Proof. vm_compute. reflexivity. Qed.

(** C2: three [server_redirect] hops with status 302 followed by a
    [navigation] hop with status 200, none on [http://], score 55, grade D;
    the issues are exactly a warning for the 3 redirects and a warning for
    the 3 temporary redirects (no error issue). *)
Theorem calculateChainScore_three_302 (h1 h2 h3 h4 : RedirectItem) :
  type h1 = server_redirect -> type h2 = server_redirect ->
  type h3 = server_redirect -> type h4 = navigation ->
  status_code h1 = 302 -> status_code h2 = 302 -> status_code h3 = 302 ->
  status_code h4 = 200 ->
  Forall (fun h => startsWith (url h) "http://" = false) [h1; h2; h3; h4] ->
  let r := calculateChainScore [h1; h2; h3; h4] in
  score r = 55 /\ grade r = D /\
  issues r =
    [mkIssue warning "3 redirects in chain. Consider reducing." medium;
     mkIssue warning
       "3 temporary redirect(s) found. Consider using 301 for permanent moves."
       medium] /\
  Forall (fun i => issue_type i <> error) (issues r).
Proof.
  intros T1 T2 T3 T4 S1 S2 S3 S4 Hhttp.
  repeat match goal with H : Forall _ (_ :: _) |- _ => inversion_clear H end.
  destruct h1, h2, h3, h4; simpl in *; subst.
  unfold calculateChainScore, is_http; simpl.
  repeat match goal with H : startsWith _ _ = false |- _ => rewrite H; clear H end.
  vm_compute. repeat split; repeat constructor; discriminate.
Qed.

(** Two hops that agree on kind, status code and URL. *)
Definition score_agree (h1 h2 : RedirectItem) : Prop :=
  type h1 = type h2 /\ status_code h1 = status_code h2 /\ url h1 = url h2.

Section ScoreInputs.
(** A per-hop test of [calculateChainScore] that reads only the kind,
    status code and URL of the hop. *)
Variable P : RedirectItem -> bool.
Hypothesis HP : forall x y, score_agree x y -> P x = P y.

Lemma filter_length_agree (p1 p2 : list RedirectItem) :
  Forall2 score_agree p1 p2 ->
  length (List.filter P p1) = length (List.filter P p2).
Proof.
  induction 1 as [|x y l1 l2 Hxy _ IH]; simpl; [done|].
  rewrite (HP x y Hxy). destruct (P y); simpl; lia.
Qed.

Lemma existsb_agree (p1 p2 : list RedirectItem) :
  Forall2 score_agree p1 p2 ->
  List.existsb P p1 = List.existsb P p2.
Proof.
  induction 1 as [|x y l1 l2 Hxy _ IH]; simpl; [done|].
  rewrite (HP x y Hxy), IH. reflexivity.
Qed.

Lemma find_code_agree (p1 p2 : list RedirectItem) :
  Forall2 score_agree p1 p2 ->
  option_map status_code (List.find P p1) =
  option_map status_code (List.find P p2).
Proof.
  induction 1 as [|x y l1 l2 Hxy _ IH]; simpl; [done|].
  rewrite (HP x y Hxy). destruct (P y); [|exact IH].
  simpl. f_equal. apply Hxy.
Qed.
End ScoreInputs.

Ltac agree_pred :=
  let x := fresh "x" in let y := fresh "y" in let H := fresh "H" in
  intros x y (H1 & H2 & H3);
  unfold is_redirect_kind, is_temp_code, is_client_redirect, is_error_code,
    is_http; rewrite ?H1, ?H2, ?H3; reflexivity.

(** C9: the score depends only on the kind, status code and URL of each
    hop: two lists of hops that agree pointwise on these three fields get
    the same [ChainScore], whatever their headers, IP, id, timestamp or
    timing. *)
Theorem calculateChainScore_depends_on_type_code_url
    (p1 p2 : list RedirectItem) :
  Forall2 score_agree p1 p2 ->
  calculateChainScore p1 = calculateChainScore p2.
Proof.
  intros H. unfold calculateChainScore. cbv zeta.
  rewrite (filter_length_agree is_redirect_kind ltac:(agree_pred) p1 p2 H).
  rewrite (filter_length_agree is_temp_code ltac:(agree_pred) p1 p2 H).
  rewrite (filter_length_agree is_client_redirect ltac:(agree_pred) p1 p2 H).
  rewrite (filter_length_agree is_error_code ltac:(agree_pred) p1 p2 H).
  rewrite (existsb_agree is_http ltac:(agree_pred) p1 p2 H).
  rewrite (find_code_agree is_redirect_kind ltac:(agree_pred) p1 p2 H).
  reflexivity.
Qed.

(** ** New-navigation detection *)

(** [pre] is the part of [s] before any ['?']: it holds no ['?'] and is
    followed in [s] by nothing or by a ['?']. *)
Definition query_free_prefix (pre s : string) : Prop :=
  (forall n c, String.get n pre = Some c -> c <> "?"%char) /\
  exists rest, s = (pre +:+ rest)%string /\
               (rest = ""%string \/ exists r, rest = String "?" r).

Lemma append_String (c : ascii) (s r : string) :
  (String c s +:+ r = String c (s +:+ r))%string.
Proof. reflexivity. Qed.

Lemma append_Empty (r : string) : (""%string +:+ r = r)%string.
Proof. reflexivity. Qed.

Lemma split_q_0_query_free (s : string) : query_free_prefix (split_q_0 s) s.
Proof.
  induction s as [|c t [IHget [rest [IHeq IHrest]]]]; cbn [split_q_0].
  - split; [intros n c H; destruct n; discriminate|].
    exists ""%string. split; [reflexivity | left; reflexivity].
  - destruct (Ascii.eqb_spec c "?"%char) as [->|Hc].
    + split; [intros n c H; destruct n; discriminate|].
      exists (String "?" t). split; [reflexivity | right; eauto].
    + split.
      * intros [|n] c' H; simpl in H; [injection H as <-; exact Hc | eauto].
      * exists rest. split; [rewrite IHeq at 1; reflexivity | exact IHrest].
Qed.

Lemma query_free_prefix_unique (p s : string) :
  query_free_prefix p s -> p = split_q_0 s.
Proof.
  revert s. induction p as [|c p IH]; intros s [Hget [rest [Heq Hrest]]];
    subst s; rewrite ?append_String, ?append_Empty; cbn [split_q_0].
  - destruct Hrest as [->|[r ->]]; reflexivity.
  - assert (Hc : c <> "?"%char) by (apply (Hget 0%nat); reflexivity).
    destruct (Ascii.eqb_spec c "?"%char) as [|_]; [contradiction|].
    f_equal. apply IH. split.
    + intros n c' H. apply (Hget (S n)). exact H.
    + eauto.
Qed.

Lemma startsWith_iff (s p : string) :
  startsWith s p = true <-> exists r, s = (p +:+ r)%string.
Proof.
  unfold startsWith. revert s.
  induction p as [|c p IH]; intros s.
  - split; [intros _; exists s; reflexivity | intros _; destruct s; reflexivity].
  - destruct s as [|c' s]; simpl.
    + split; [discriminate | intros [r Hr]; discriminate].
    + destruct (ascii_dec c c') as [<-|Hne].
      * rewrite IH. split; intros [r Hr]; exists r;
          rewrite ?append_String in *; congruence.
      * split; [discriminate | intros [r Hr]; rewrite append_String in Hr;
                               congruence].
Qed.

(** The test of [onBeforeNavigate], read as the spec states it. *)
Definition new_navigation_cond (s : State) (tid : Z) (u : string) : Prop :=
  tabPaths s !! tid = None \/
  exists tp, tabPaths s !! tid = Some tp /\
    (path tp = [] \/
     exists first rest pre, path tp = first :: rest /\
       query_free_prefix pre (url first) /\
       ~ exists r, u = (pre +:+ r)%string).

Lemma isNewNavigation_iff (s : State) (tid : Z) (u : string) :
  isNewNavigation s tid u = true <-> new_navigation_cond s tid u.
Proof.
  unfold isNewNavigation, new_navigation_cond.
  destruct (tabPaths s !! tid) as [tp|] eqn:Htp.
  - destruct (path tp) as [|first rest] eqn:Hp.
    + split; [intros _; right; eauto | reflexivity].
    + assert (Hpre : (if String.eqb (split_q_0 (url first)) "" then ""%string
                      else split_q_0 (url first)) = split_q_0 (url first))
        by (destruct (String.eqb_spec (split_q_0 (url first)) "") as [->|];
            reflexivity).
      rewrite Hpre, negb_true_iff, <- not_true_iff_false, startsWith_iff.
      split.
      * intros Hn. right. exists tp. split; [reflexivity|]. right.
        exists first, rest, (split_q_0 (url first)).
        split; [exact Hp|]. split; [apply split_q_0_query_free | exact Hn].
      * intros [Hnone|[tp' [Htp' [Hnil|[f [r [pre [Hfr [Hq Hn]]]]]]]]];
          [discriminate| |].
        -- injection Htp' as <-. congruence.
        -- injection Htp' as <-. rewrite Hp in Hfr. injection Hfr as <- <-.
           apply query_free_prefix_unique in Hq. subst pre. exact Hn.
  - split; [intros _; left; reflexivity | reflexivity].
Qed.

Definition fresh_chain (tid now : Z) : TabRedirectPath := mkTabPath tid [] now.

Lemma step_onBeforeNavigate_tabPaths (s : State) (tid now : Z) (u : string) :
  tabPaths (step s (onBeforeNavigate tid 0 u now)) =
  if isNewNavigation s tid u then <[tid := fresh_chain tid now]> (tabPaths s)
  else tabPaths s.
Proof. simpl. destruct (isNewNavigation s tid u); reflexivity. Qed.

(** C1: a top-level navigation-about-to-occur event for tab [tid] and URL
    [u] is classified as new exactly when the tab has no chain, or an empty
    chain, or [u] does not start with the first hop's URL cut before any
    ['?']; a new navigation replaces the chain with a fresh empty one, a
    continuing one leaves every chain as it is.  With first hop
    [https://a.com/?x=1], [https://a.com/?y=2] continues and
    [https://b.com/] is new. *)
Theorem onBeforeNavigate_classification (s : State) (tid now : Z) (u : string) :
  let s' := step s (onBeforeNavigate tid 0 u now) in
  (isNewNavigation s tid u = true <-> new_navigation_cond s tid u) /\
  (new_navigation_cond s tid u ->
     tabPaths s' = <[tid := fresh_chain tid now]> (tabPaths s)) /\
  (~ new_navigation_cond s tid u -> tabPaths s' = tabPaths s) /\
  (forall tp first rest,
     tabPaths s !! tid = Some tp -> path tp = first :: rest ->
     url first = "https://a.com/?x=1"%string ->
     ~ new_navigation_cond s tid "https://a.com/?y=2" /\
     tabPaths (step s (onBeforeNavigate tid 0 "https://a.com/?y=2" now))
       = tabPaths s /\
     new_navigation_cond s tid "https://b.com/" /\
     tabPaths (step s (onBeforeNavigate tid 0 "https://b.com/" now))
       = <[tid := fresh_chain tid now]> (tabPaths s)).
Proof.
  cbv zeta. rewrite !step_onBeforeNavigate_tabPaths, <- !isNewNavigation_iff.
  split; [reflexivity|]. split; [intros ->; reflexivity|].
  split; [intros Hn; apply not_true_is_false in Hn; rewrite Hn; reflexivity|].
  intros tp first rest Htp Hp Hu.
  assert (Hc : isNewNavigation s tid "https://a.com/?y=2" = false).
  { unfold isNewNavigation. rewrite Htp, Hp, Hu. vm_compute. reflexivity. }
  assert (Hb : isNewNavigation s tid "https://b.com/" = true).
  { unfold isNewNavigation. rewrite Htp, Hp, Hu. vm_compute. reflexivity. }
  rewrite Hc, Hb, <- !isNewNavigation_iff, Hc, Hb.
  split; [discriminate|]. split; [reflexivity|]. split; reflexivity.
Qed.

(** ** Tab closing *)

Definition closed_tab_state : State :=
  mkState (<[5 := mkTabPath 5 [] 1000]> ∅)
    (<[requestKey 5 "https://a.com/" := 1000]> ∅) ∅ ∅.

(** C7 (as the claim states it, refuted): closing tab 5 leaves the timing
    entry keyed by tab 5 and [https://a.com/] in place. *)
Lemma tabRemoved_keeps_timing :
  requestTimings (step closed_tab_state (tabRemoved 5))
    !! requestKey 5 "https://a.com/" = Some 1000.
Proof. vm_compute. reflexivity. Qed.

(** ** Timing *)

(** Run the listeners over a sequence of events. *)
Definition run (s : State) (es : list Event) : State := fold_left step es s.

(** Does the event record a start time under [key]? *)
Definition starts_timing_for (key : string) (e : Event) : bool :=
  match e with
  | onBeforeRequest tid u rtype _ =>
      is_main_frame rtype && String.eqb (requestKey tid u) key
  | _ => false
  end.

(** Every recorded start time is a positive epoch time. *)
Definition timings_positive (s : State) : Prop :=
  map_Forall (fun _ t => 0 < t) (requestTimings s).

(** The clock reading an event carries is a positive epoch time. *)
Definition event_clock_positive (e : Event) : Prop :=
  match e with
  | onBeforeRequest _ _ _ now => 0 < now
  | _ => True
  end.

Lemma addRedirectItem_requestTimings (s : State) (tid : Z) (item : ItemIn)
    (clk : AddClock) (rid : string) :
  requestTimings (addRedirectItem s tid item clk rid) =
  delete (requestKey tid (in_url item)) (requestTimings s).
Proof. reflexivity. Qed.

Lemma backfill_tab_requestTimings (s : State) (tid : Z) (u v : string) :
  requestTimings (backfill_tab s tid u v) = requestTimings s.
Proof. unfold backfill_tab. destruct (tabPaths s !! tid); reflexivity. Qed.

Lemma step_timings_positive (s : State) (e : Event) :
  timings_positive s -> event_clock_positive e -> timings_positive (step s e).
Proof.
  unfold timings_positive. intros Hs He.
  destruct e; simpl in *.
  - destruct (is_main_frame rtype); simpl; [|exact Hs].
    apply map_Forall_insert_2; assumption.
  - destruct (is_main_frame rtype); simpl; [|exact Hs].
    destruct (truthy dip); [|exact Hs].
    rewrite backfill_tab_requestTimings. exact Hs.
  - destruct (frameId =? 0); simpl; [|exact Hs].
    destruct (isNewNavigation s tid u); exact Hs.
  - destruct (is_main_frame rtype); simpl; [|exact Hs].
    apply map_Forall_delete. exact Hs.
  - destruct (is_main_frame rtype); simpl; [|exact Hs].
    destruct (truthy dip); [|exact Hs].
    rewrite backfill_tab_requestTimings. exact Hs.
  - destruct (frameId =? 0); simpl; [|exact Hs].
    destruct (tabPaths s !! tid) as [tp|]; [destruct (path tp)|];
      simpl; try apply map_Forall_delete; exact Hs.
  - exact Hs.
  - exact Hs.
  - intros k t Hk. apply map_lookup_filter_Some in Hk as [Hk _].
    exact (Hs k t Hk).
Qed.

Lemma step_timing_absent (s : State) (e : Event) (key : string) :
  requestTimings s !! key = None -> starts_timing_for key e = false ->
  requestTimings (step s e) !! key = None.
Proof.
  intros Hs He. destruct e; simpl in *.
  - destruct (is_main_frame rtype); simpl in *; [|exact Hs].
    rewrite lookup_insert_ne; [exact Hs|].
    intros Heq. rewrite Heq, String.eqb_refl in He. discriminate.
  - destruct (is_main_frame rtype); simpl; [|exact Hs].
    destruct (truthy dip); [|exact Hs].
    rewrite backfill_tab_requestTimings. exact Hs.
  - destruct (frameId =? 0); simpl; [|exact Hs].
    destruct (isNewNavigation s tid u); exact Hs.
  - destruct (is_main_frame rtype); simpl; [|exact Hs].
    apply lookup_delete_None. right. exact Hs.
  - destruct (is_main_frame rtype); simpl; [|exact Hs].
    destruct (truthy dip); [|exact Hs].
    rewrite backfill_tab_requestTimings. exact Hs.
  - destruct (frameId =? 0); simpl; [|exact Hs].
    destruct (tabPaths s !! tid) as [tp|]; [destruct (path tp)|];
      simpl; try (apply lookup_delete_None; right); exact Hs.
  - exact Hs.
  - exact Hs.
  - apply map_lookup_filter_None. left. exact Hs.
Qed.

Lemma run_timing_absent (es : list Event) (s : State) (key : string) :
  requestTimings s !! key = None ->
  forallb (fun e => negb (starts_timing_for key e)) es = true ->
  requestTimings (run s es) !! key = None.
Proof.
  revert s. induction es as [|e es IH]; intros s Hs Hes; simpl in *; [exact Hs|].
  apply andb_true_iff in Hes as [He Hes]. apply negb_true_iff in He.
  apply IH; [apply step_timing_absent|]; assumption.
Qed.

(** Events that take the timing entry [k] away as a hop for it is
    recorded: a main-frame headers event, or a top-frame navigation
    completion (which records a hop when the tab has none), for the tab
    and URL of [k]. *)
Definition consumes_timing (k : string) (e : Event) : Prop :=
  (exists tid u rtype code line rh dip clk rid,
     e = onHeadersReceived tid u rtype code line rh dip clk rid /\
     is_main_frame rtype = true /\ requestKey tid u = k) \/
  (exists tid u clk rid,
     e = navigationCompleted tid 0 u clk rid /\ requestKey tid u = k).

(** The 60 s cleanup, run at a time when the entry [t] is older than
    [TIMING_MAX_AGE]. *)
Definition sweeps_timing (t : Z) (e : Event) : Prop :=
  exists now, e = timingCleanup now /\ now - t > TIMING_MAX_AGE.

Lemma step_timing_removed (s : State) (e : Event) (k : string) (t : Z) :
  requestTimings s !! k = Some t ->
  requestTimings (step s e) !! k = None ->
  consumes_timing k e \/ sweeps_timing t e.
Proof.
  intros Hs Hn. destruct e; cbn [step] in Hn.
  - destruct (is_main_frame rtype); cbn [negb] in Hn; [|congruence].
    cbn in Hn. destruct (String.eq_dec (requestKey tid u) k) as [<-|Hne].
    + rewrite lookup_insert_eq in Hn. discriminate.
    + rewrite lookup_insert_ne in Hn by exact Hne. congruence.
  - destruct (is_main_frame rtype); cbn [negb] in Hn; [|congruence].
    destruct (truthy dip); [|congruence].
    rewrite backfill_tab_requestTimings in Hn. cbn in Hn. congruence.
  - destruct (frameId =? 0); cbn [negb] in Hn; [|congruence].
    destruct (isNewNavigation s tid u); cbn in Hn; congruence.
  - destruct (is_main_frame rtype) eqn:Hm; cbn [negb] in Hn; [|congruence].
    cbn in Hn. destruct (String.eq_dec (requestKey tid u) k) as [Hk|Hne].
    + left. left. do 9 eexists. split; [reflexivity|]. split; eassumption.
    + rewrite lookup_delete_ne in Hn by exact Hne. congruence.
  - destruct (is_main_frame rtype); cbn [negb] in Hn; [|congruence].
    destruct (truthy dip); [|congruence].
    rewrite backfill_tab_requestTimings in Hn. congruence.
  - destruct (Z.eqb_spec frameId 0) as [->|Hf]; cbn [negb] in Hn; [|congruence].
    cbn [tabPaths set_pendingNavigations] in Hn.
    assert (Hc : requestTimings (addRedirectItem
                   (set_pendingNavigations s (delete tid (pendingNavigations s))) tid
                   (mkItemIn u 200 "HTTP/1.1 200 OK" None navigation None None [])
                   clk rid) !! k = None -> consumes_timing k (navigationCompleted tid 0 u clk rid)).
    { rewrite addRedirectItem_requestTimings. cbn [in_url requestTimings set_pendingNavigations].
      destruct (String.eq_dec (requestKey tid u) k) as [Hk|Hne].
      - intros _. right. do 4 eexists. split; [reflexivity|exact Hk].
      - rewrite lookup_delete_ne by exact Hne. congruence. }
    destruct (tabPaths s !! tid) as [tp|]; [destruct (path tp)|];
      first [left; exact (Hc Hn) | cbn in Hn; congruence].
  - cbn in Hn. congruence.
  - cbn in Hn. congruence.
  - cbn in Hn. apply map_lookup_filter_None in Hn as [Hn|Hn]; [congruence|].
    right. eexists. split; [reflexivity|].
    specialize (Hn t Hs). cbn in Hn. lia.
Qed.

(** C7 (amended): a tab-closed event deletes the tab's chain, leaves the
    other tabs' chains and the timing table as they were, and the chain
    query for the tab then returns the empty list, as for a tab never
    seen.  After it, a timing entry (keyed by the closed tab or any other)
    goes away only when an event consumes it for a hop or the 60 s cleanup
    finds it older than 60 s. *)
Theorem tabRemoved_deletes_chain (s : State) (t : Z) :
  let s' := step s (tabRemoved t) in
  tabPaths s' !! t = None /\
  (forall t', t' <> t -> tabPaths s' !! t' = tabPaths s !! t') /\
  requestTimings s' = requestTimings s /\
  getTabPath s' t = [] /\
  (forall s0 : State, tabPaths s0 !! t = None -> getTabPath s' t = getTabPath s0 t) /\
  (forall (es : list Event) (e : Event) (k : string) (tm : Z),
     requestTimings (run s' es) !! k = Some tm ->
     requestTimings (step (run s' es) e) !! k = None ->
     consumes_timing k e \/ sweeps_timing tm e).
Proof.
  cbv zeta. split; [|split; [|split; [|split; [|split]]]].
  - cbn. apply lookup_delete_eq.
  - intros t' Hne. cbn. rewrite !lookup_delete_ne by congruence. reflexivity.
  - reflexivity.
  - unfold getTabPath. cbn. rewrite lookup_delete_eq. reflexivity.
  - intros s0 H0. unfold getTabPath. cbn. rewrite lookup_delete_eq, H0.
    reflexivity.
  - intros es e k tm. apply step_timing_removed.
Qed.


(** [item.timing?.duration] *)
Definition duration' (h : RedirectItem) : option Z := option_map duration (timing h).

Lemma addRedirectItem_appends (s : State) (tid : Z) (item : ItemIn)
    (clk : AddClock) (rid : string) :
  let st := match requestTimings s !! requestKey tid (in_url item) with
            | Some t => if t =? 0 then clk_start clk else t
            | None => clk_start clk
            end in
  exists h,
    getTabPath (addRedirectItem s tid item clk rid) tid = getTabPath s tid ++ [h] /\
    url h = in_url item /\
    timing h = Some (mkTiming st (clk_end clk) (clk_end clk - st)).
Proof.
  cbv zeta. unfold getTabPath, addRedirectItem, getOrCreateTabPath. simpl.
  rewrite lookup_insert_eq.
  destruct (tabPaths s !! tid); simpl; eexists; (split; [|split]); reflexivity.
Qed.

Definition timing_state : State :=
  mkState ∅ (<[requestKey 7 "https://a.com/" := 1000]> ∅) ∅ ∅.

Definition timing_item : ItemIn :=
  mkItemIn "https://a.com/" 301 "HTTP/1.1 301 Moved Permanently" None
    server_redirect (Some permanent) (Some "https://www.a.com/") [].

Definition fallback_state : State := mkState ∅ ∅ ∅ ∅.

(** C8 (as the claim states it, refuted): with no recorded start time, the
    fallback start and the end time are two separate [Date.now()] calls;
    when the clock ticks from 1250 to 1251 between them the hop's duration
    is 1, not 0. *)
Lemma addRedirectItem_fallback_duration_one :
  requestTimings fallback_state !! requestKey 7 "https://a.com/" = None /\
  exists h,
    getTabPath (addRedirectItem fallback_state 7 timing_item
                  (mkAddClock 1250 1250 1251 1251) "r1") 7 = [h] /\
    timing h = Some (mkTiming 1250 1251 1) /\
    duration (mkTiming 1250 1251 1) <> 0.
Proof.
  split; [reflexivity|]. eexists. split; [reflexivity|].
  split; [reflexivity|]. cbn. lia.
Qed.

(** C8 (amended): the hop appended for tab [tid] and URL [u] gets as start
    time the one recorded under [tid-u] by the request-start event if
    there is one, else the reading of a fresh [Date.now()] call made just
    before the end time's; its end time is the next [Date.now()] reading
    and its duration the difference, which in the fallback case is the
    clock's advance between the two calls (0 when they agree).  The entry
    is deleted, so a later hop for the same tab and URL, with no
    request-start for that key in between, gets the fresh-reading
    fallback. *)
Theorem addRedirectItem_timing (s : State) (tid : Z) (item : ItemIn)
    (clk : AddClock) (rid : string) :
  timings_positive s ->
  let key := requestKey tid (in_url item) in
  let st := match requestTimings s !! key with
            | Some t => t
            | None => clk_start clk
            end in
  let s' := addRedirectItem s tid item clk rid in
  (exists h, getTabPath s' tid = getTabPath s tid ++ [h] /\
     url h = in_url item /\
     timing h = Some (mkTiming st (clk_end clk) (clk_end clk - st))) /\
  (requestTimings s !! key = None ->
     exists h, getTabPath s' tid = getTabPath s tid ++ [h] /\
       timing h = Some (mkTiming (clk_start clk) (clk_end clk)
                          (clk_end clk - clk_start clk)) /\
       (clk_start clk = clk_end clk -> duration' h = Some 0)) /\
  requestTimings s' !! key = None /\
  (forall (es : list Event) (item' : ItemIn) (clk2 : AddClock) (rid2 : string),
     in_url item' = in_url item ->
     forallb (fun e => negb (starts_timing_for key e)) es = true ->
     exists h,
       getTabPath (addRedirectItem (run s' es) tid item' clk2 rid2) tid =
         getTabPath (run s' es) tid ++ [h] /\
       timing h = Some (mkTiming (clk_start clk2) (clk_end clk2)
                          (clk_end clk2 - clk_start clk2))).
Proof.
  intros Hpos. cbv zeta.
  assert (Hst : match requestTimings s !! requestKey tid (in_url item) with
                | Some t => if t =? 0 then clk_start clk else t
                | None => clk_start clk
                end =
                match requestTimings s !! requestKey tid (in_url item) with
                | Some t => t
                | None => clk_start clk
                end).
  { destruct (requestTimings s !! _) as [t|] eqn:Ht; [|reflexivity].
    apply Hpos in Ht. destruct (Z.eqb_spec t 0); [lia | reflexivity]. }
  pose proof (addRedirectItem_appends s tid item clk rid) as Happ.
  cbv zeta in Happ. rewrite Hst in Happ.
  split; [exact Happ|]. split.
  - intros Hnone. rewrite Hnone in Happ. destruct Happ as [h [Hh [_ Ht]]].
    exists h. split; [exact Hh|]. split; [exact Ht|].
    intros Heq. unfold duration'. rewrite Ht. cbn. f_equal. lia.
  - split.
    + rewrite addRedirectItem_requestTimings. apply lookup_delete_eq.
    + intros es item' clk2 rid2 Hu Hes.
      pose proof (addRedirectItem_appends (run (addRedirectItem s tid item clk rid) es)
                    tid item' clk2 rid2) as Happ2.
      cbv zeta in Happ2.
      rewrite Hu, (run_timing_absent es) in Happ2; [| |exact Hes].
      * destruct Happ2 as [h [Hh [_ Ht]]]. exists h. split; [exact Hh|].
        exact Ht.
      * rewrite addRedirectItem_requestTimings. apply lookup_delete_eq.
Qed.

(** ** IP backfill *)

(** The tab and URL an IP-carrying event ([onResponseStarted],
    [onCompleted]) is about. *)
Definition ip_event_target (e : Event) : option (Z * string) :=
  match e with
  | onResponseStarted tid u _ _ | onCompleted tid u _ _ => Some (tid, u)
  | _ => None
  end.

Lemma truthy_nonempty (o : option string) (v : string) :
  truthy o = Some v -> v <> ""%string.
Proof.
  destruct o as [w|]; simpl; [|discriminate].
  destruct (String.eqb_spec w ""); [discriminate|]. congruence.
Qed.

Lemma backfill_ip_length (u v : string) (l : list RedirectItem) :
  length (backfill_ip u v l) = length l.
Proof.
  induction l as [|h t IH]; simpl; [reflexivity|].
  destruct (String.eqb (url h) u && String.eqb (ip h) "Unknown"); simpl;
    congruence.
Qed.

Lemma backfill_ip_slot (u v : string) (l : list RedirectItem) (i : nat)
    (h : RedirectItem) :
  l !! i = Some h ->
  backfill_ip u v l !! i = Some h \/
  (url h = u /\ ip h = "Unknown"%string /\
   backfill_ip u v l !! i = Some (set_ip h v)).
Proof.
  revert i. induction l as [|a t IH]; intros i Hi; [discriminate|]; simpl.
  destruct (String.eqb_spec (url a) u), (String.eqb_spec (ip a) "Unknown");
    simpl; destruct i as [|i]; simpl in *;
    try (injection Hi as <-); auto.
Qed.

(** How one event can change the hop list of a tab that has a chain. *)
Inductive path_change (t : Z) (e : Event)
    : list RedirectItem -> list RedirectItem -> Prop :=
  | pc_same l : path_change t e l l
  | pc_cleared l : path_change t e l []
  | pc_append l x : path_change t e l (l ++ [x])
  | pc_backfill l u v :
      ip_event_target e = Some (t, u) -> v <> ""%string ->
      path_change t e l (backfill_ip u v l).

Lemma addRedirectItem_path_change (s : State) (e : Event) (t tid : Z)
    (item : ItemIn) (clk : AddClock) (rid : string) (tp tp' : TabRedirectPath) :
  tabPaths s !! t = Some tp ->
  tabPaths (addRedirectItem s tid item clk rid) !! t = Some tp' ->
  path_change t e (path tp) (path tp').
Proof.
  intros Hs Hs'. unfold addRedirectItem, getOrCreateTabPath in Hs'. simpl in Hs'.
  destruct (Z.eq_dec t tid) as [->|Hne].
  - rewrite lookup_insert_eq, Hs in Hs'. injection Hs' as <-. simpl.
    apply pc_append.
  - rewrite lookup_insert_ne in Hs' by congruence. rewrite Hs in Hs'.
    injection Hs' as <-. apply pc_same.
Qed.

Lemma clearTabPath_path_change (s : State) (e : Event) (t tid now : Z)
    (tp tp' : TabRedirectPath) :
  tabPaths s !! t = Some tp ->
  tabPaths (clearTabPath s tid now) !! t = Some tp' ->
  path_change t e (path tp) (path tp').
Proof.
  intros Hs Hs'. unfold clearTabPath in Hs'. simpl in Hs'.
  destruct (Z.eq_dec t tid) as [->|Hne].
  - rewrite lookup_insert_eq in Hs'. injection Hs' as <-. apply pc_cleared.
  - rewrite lookup_insert_ne in Hs' by congruence. rewrite Hs in Hs'.
    injection Hs' as <-. apply pc_same.
Qed.

Lemma backfill_tab_path_change (s : State) (e : Event) (t tid : Z)
    (u v : string) (tp tp' : TabRedirectPath) :
  ip_event_target e = Some (tid, u) -> v <> ""%string ->
  tabPaths s !! t = Some tp ->
  tabPaths (backfill_tab s tid u v) !! t = Some tp' ->
  path_change t e (path tp) (path tp').
Proof.
  intros He Hv Hs Hs'. unfold backfill_tab in Hs'.
  destruct (tabPaths s !! tid) as [tq|] eqn:Htq;
    [|rewrite Hs in Hs'; injection Hs' as <-; apply pc_same].
  simpl in Hs'. destruct (Z.eq_dec t tid) as [->|Hne].
  - rewrite lookup_insert_eq in Hs'. injection Hs' as <-. simpl.
    rewrite Hs in Htq. injection Htq as ->. apply pc_backfill; assumption.
  - rewrite lookup_insert_ne in Hs' by congruence. rewrite Hs in Hs'.
    injection Hs' as <-. apply pc_same.
Qed.

Lemma same_path_change (s : State) (e : Event) (t : Z) (tp tp' : TabRedirectPath) :
  tabPaths s !! t = Some tp -> tabPaths s !! t = Some tp' ->
  path_change t e (path tp) (path tp').
Proof. intros H1 H2. rewrite H1 in H2. injection H2 as <-. apply pc_same. Qed.

Lemma step_path_change (s : State) (e : Event) (t : Z) (tp tp' : TabRedirectPath) :
  tabPaths s !! t = Some tp -> tabPaths (step s e) !! t = Some tp' ->
  path_change t e (path tp) (path tp').
Proof.
  intros Hs Hs'. destruct e eqn:He; cbn [step] in Hs'.
  - destruct (is_main_frame rtype); cbn [negb] in Hs';
      eapply same_path_change; eauto.
  - destruct (is_main_frame rtype); cbn [negb] in Hs';
      [|eapply same_path_change; eauto].
    destruct (truthy dip) as [v|] eqn:Hv; [|eapply same_path_change; eauto].
    apply (backfill_tab_path_change
             (set_requestIPs s (<[requestKey tid u:=v]> (requestIPs s)))
             (onResponseStarted tid u rtype dip) t tid u v tp tp');
      [reflexivity | eapply truthy_nonempty; eassumption | exact Hs | exact Hs'].
  - destruct (frameId =? 0); cbn [negb] in Hs'; [|eapply same_path_change; eauto].
    destruct (isNewNavigation s tid u);
      [exact (clearTabPath_path_change s _ t tid now tp tp' Hs Hs')
      | eapply same_path_change; eauto].
  - destruct (is_main_frame rtype); cbn [negb] in Hs';
      [|eapply same_path_change; eauto].
    exact (addRedirectItem_path_change s _ t tid _ clk rid tp tp' Hs Hs').
  - destruct (is_main_frame rtype); cbn [negb] in Hs';
      [|eapply same_path_change; eauto].
    destruct (truthy dip) as [v|] eqn:Hv; [|eapply same_path_change; eauto].
    apply (backfill_tab_path_change s (onCompleted tid u rtype dip)
             t tid u v tp tp');
      [reflexivity | eapply truthy_nonempty; eassumption | exact Hs | exact Hs'].
  - destruct (frameId =? 0); cbn [negb] in Hs'; [|eapply same_path_change; eauto].
    change (tabPaths (set_pendingNavigations s (delete tid (pendingNavigations s))))
      with (tabPaths s) in Hs'.
    destruct (tabPaths s !! tid) as [tq|]; [destruct (path tq)|];
      first [ exact (addRedirectItem_path_change
                       (set_pendingNavigations s (delete tid (pendingNavigations s)))
                       _ t tid _ clk rid tp tp' Hs Hs')
            | eapply same_path_change; eauto ].
  - cbn [tabPaths set_tabPaths] in Hs'. destruct (Z.eq_dec t tid) as [->|Hne].
    + rewrite lookup_delete_eq in Hs'. discriminate.
    + rewrite !lookup_delete_ne in Hs' by congruence.
      eapply same_path_change; eauto.
  - exact (clearTabPath_path_change s _ t tid now tp tp' Hs Hs').
  - eapply same_path_change; eauto.
Qed.

Lemma path_change_slot (t : Z) (e : Event) (l l' : list RedirectItem)
    (i : nat) (h : RedirectItem) :
  path_change t e l l' -> l !! i = Some h -> (i < length l')%nat ->
  l' !! i = Some h \/
  (ip h = "Unknown"%string /\ ip_event_target e = Some (t, url h) /\
   exists v, v <> ""%string /\ l' !! i = Some (set_ip h v)).
Proof.
  intros Hc Hi Hlen. destruct Hc as [l|l|l x|l u v He Hv].
  - left. exact Hi.
  - simpl in Hlen. lia.
  - left. apply lookup_app_l_Some. exact Hi.
  - destruct (backfill_ip_slot u v l i h Hi) as [H|[Hu [Hip H]]].
    + left. exact H.
    + right. subst u. split; [exact Hip|]. split; [exact He|]. eauto.
Qed.

(** C6: across any event, a hop of a tab's chain that is still there
    afterwards is unchanged, except that a hop whose IP is still
    ["Unknown"] may get an IP set, and only by an IP-observed or
    request-completed event for that tab and the hop's URL; in particular
    a hop with a known IP is never changed. *)
Theorem known_ip_never_changes (s : State) (e : Event) (t : Z)
    (tp tp' : TabRedirectPath) :
  tabPaths s !! t = Some tp ->
  tabPaths (step s e) !! t = Some tp' ->
  forall (i : nat) (h : RedirectItem),
    path tp !! i = Some h -> (i < length (path tp'))%nat ->
    (ip h <> "Unknown"%string -> path tp' !! i = Some h) /\
    (path tp' !! i = Some h \/
     (ip h = "Unknown"%string /\ ip_event_target e = Some (t, url h) /\
      exists v, v <> ""%string /\ path tp' !! i = Some (set_ip h v))).
Proof.
  intros Hs Hs' i h Hi Hlen.
  pose proof (path_change_slot t e _ _ i h (step_path_change s e t tp tp' Hs Hs')
                Hi Hlen) as Hslot.
  split; [|exact Hslot].
  intros Hknown. destruct Hslot as [H|[Hu _]]; [exact H | contradiction].
Qed.

(** [h] at index [i] is the first hop of [l] with URL [u] and IP
    ["Unknown"]. *)
Definition first_unknown (u : string) (l : list RedirectItem) (i : nat)
    (h : RedirectItem) : Prop :=
  l !! i = Some h /\ url h = u /\ ip h = "Unknown"%string /\
  forall j h', (j < i)%nat -> l !! j = Some h' ->
    ~ (url h' = u /\ ip h' = "Unknown"%string).

Lemma backfill_ip_spec (u v : string) (l : list RedirectItem) :
  (exists i h, first_unknown u l i h /\
     backfill_ip u v l = <[i := set_ip h v]> l) \/
  ((forall i h, l !! i = Some h -> ~ (url h = u /\ ip h = "Unknown"%string)) /\
   backfill_ip u v l = l).
Proof.
  induction l as [|a t IH]; simpl.
  - right. split; [intros i h H; discriminate | reflexivity].
  - destruct (String.eqb_spec (url a) u) as [Hu|Hu];
    destruct (String.eqb_spec (ip a) "Unknown") as [Hi|Hi]; simpl.
    1: { left. exists 0%nat, a. split; [|reflexivity].
         split; [reflexivity|]. split; [exact Hu|]. split; [exact Hi|].
         intros j h' Hj. lia. }
    all: destruct IH as [[i [h [[Hl [Hhu [Hhi Hfirst]]] Heq]]]|[Hnone Heq]];
      [ left; exists (S i), h; rewrite Heq; split; [|reflexivity];
        split; [exact Hl|]; split; [exact Hhu|]; split; [exact Hhi|];
        intros [|j] h' Hj Hj'; simpl in Hj';
          [injection Hj' as <-; tauto | apply (Hfirst j); [lia | exact Hj']]
      | right; rewrite Heq; split; [|reflexivity];
        intros [|j] h' Hj'; simpl in Hj';
          [injection Hj' as <-; tauto | exact (Hnone j h' Hj')] ].
Qed.

(** C10: an IP-observed or request-completed event (main frame) carrying
    IP [v] for tab [tid] and URL [u] changes at most one hop: the first hop
    of the tab's chain with URL [u] and IP ["Unknown"] gets [set_ip h v]
    (every other field kept); all other hops, the tab's id and start time,
    and the other tabs' chains are unchanged. *)
Theorem ip_event_updates_first_unknown (s : State) (e : Event) (tid : Z)
    (u v : string) :
  (e = onResponseStarted tid u "main_frame" (Some v) \/
   e = onCompleted tid u "main_frame" (Some v)) ->
  v <> ""%string ->
  let s' := step s e in
  (forall t', t' <> tid -> tabPaths s' !! t' = tabPaths s !! t') /\
  match tabPaths s !! tid with
  | None => tabPaths s' !! tid = None
  | Some tp =>
      exists tp', tabPaths s' !! tid = Some tp' /\
        tabId tp' = tabId tp /\ tp_startTime tp' = tp_startTime tp /\
        ((exists i h, first_unknown u (path tp) i h /\
            path tp' = <[i := set_ip h v]> (path tp)) \/
         ((forall i h, path tp !! i = Some h ->
             ~ (url h = u /\ ip h = "Unknown"%string)) /\
          path tp' = path tp))
  end.
Proof.
  intros He Hv. cbv zeta.
  assert (Hs' : tabPaths (step s e) = tabPaths (backfill_tab s tid u v)).
  { assert (Ht : truthy (Some v) = Some v).
    { simpl. destruct (String.eqb_spec v ""); [contradiction | reflexivity]. }
    destruct He as [-> | ->]; unfold step;
      change (is_main_frame "main_frame") with true; cbn [negb]; rewrite Ht;
      unfold backfill_tab; [|reflexivity].
    simpl. destruct (tabPaths s !! tid); reflexivity. }
  rewrite Hs'. unfold backfill_tab.
  destruct (tabPaths s !! tid) as [tp|] eqn:Htp; simpl.
  - split.
    + intros t' Hne. rewrite lookup_insert_ne by congruence. reflexivity.
    + eexists. rewrite lookup_insert_eq. split; [reflexivity|].
      split; [reflexivity|]. split; [reflexivity|]. simpl.
      apply backfill_ip_spec.
  - split; [reflexivity | exact Htp].
Qed.

(* ================================================================== *)
(** * Concrete instances *)

Definition sample_hop (u : string) (c : Z) (k : ItemType) (a : string)
    : RedirectItem :=
  mkItem "k3j9x0" u c "" a k None None [] 1000 None (getStatusObject c).

Definition hops_302 : list RedirectItem :=
  [sample_hop "https://a.com/" 302 server_redirect "Unknown";
   sample_hop "https://www.a.com/" 302 server_redirect "1.2.3.4";
   sample_hop "https://www.a.com/home" 302 server_redirect "1.2.3.4";
   sample_hop "https://www.a.com/home/" 200 navigation "1.2.3.4"].

Lemma calculateChainScore_three_302_witness :
  Forall (fun h => startsWith (url h) "http://" = false) hops_302 /\
  score (calculateChainScore hops_302) = 55 /\
  grade (calculateChainScore hops_302) = D.
Proof.
  split; [vm_compute; repeat constructor|].
  destruct (calculateChainScore_three_302
              (sample_hop "https://a.com/" 302 server_redirect "Unknown")
              (sample_hop "https://www.a.com/" 302 server_redirect "1.2.3.4")
              (sample_hop "https://www.a.com/home" 302 server_redirect "1.2.3.4")
              (sample_hop "https://www.a.com/home/" 200 navigation "1.2.3.4"))
    as [Hs [Hg _]];
    try reflexivity; [vm_compute; repeat constructor|].
  split; assumption.
Defined.

Lemma calculateChainScore_depends_on_type_code_url_witness :
  Forall2 score_agree hops_302
    (map (fun h => set_ip h "9.9.9.9") hops_302) /\
  calculateChainScore hops_302 =
  calculateChainScore (map (fun h => set_ip h "9.9.9.9") hops_302).
Proof.
  assert (H : Forall2 score_agree hops_302
                (map (fun h => set_ip h "9.9.9.9") hops_302)).
  { repeat constructor. }
  split; [exact H|].
  apply (calculateChainScore_depends_on_type_code_url _ _ H).
Defined.

Lemma addRedirectItem_timing_witness :
  timings_positive timing_state /\
  requestTimings (addRedirectItem timing_state 7 timing_item
                    (mkAddClock 1250 1250 1250 1250) "r1")
    !! requestKey 7 "https://a.com/" = None /\
  exists h, getTabPath (addRedirectItem timing_state 7 timing_item
                          (mkAddClock 1250 1250 1250 1250) "r1") 7
              = [h] /\ timing h = Some (mkTiming 1000 1250 250).
Proof.
  assert (Hpos : timings_positive timing_state).
  { unfold timings_positive. apply map_Forall_insert_2; [lia|].
    apply map_Forall_empty. }
  destruct (addRedirectItem_timing timing_state 7 timing_item
              (mkAddClock 1250 1250 1250 1250) "r1" Hpos)
    as [[h [Hh [_ Ht]]] [_ [Hdel _]]].
  split; [exact Hpos|]. split; [exact Hdel|].
  exists h. split; [exact Hh|]. rewrite Ht. reflexivity.
Defined.

Definition backfill_state : State :=
  mkState
    (<[3 := mkTabPath 3
              [sample_hop "https://a.com/" 301 server_redirect "1.2.3.4";
               sample_hop "https://b.com/" 200 navigation "Unknown";
               sample_hop "https://b.com/" 200 navigation "Unknown"] 1000]> ∅)
    ∅ ∅ ∅.

Definition backfill_event : Event :=
  onResponseStarted 3 "https://b.com/" "main_frame" (Some "5.6.7.8").

Lemma known_ip_never_changes_witness :
  tabPaths (step backfill_state backfill_event) !! 3 =
    Some (mkTabPath 3
            [sample_hop "https://a.com/" 301 server_redirect "1.2.3.4";
             sample_hop "https://b.com/" 200 navigation "5.6.7.8";
             sample_hop "https://b.com/" 200 navigation "Unknown"] 1000) /\
  (forall (i : nat) (h : RedirectItem),
     [sample_hop "https://a.com/" 301 server_redirect "1.2.3.4";
      sample_hop "https://b.com/" 200 navigation "Unknown";
      sample_hop "https://b.com/" 200 navigation "Unknown"] !! i = Some h ->
     (i < 3)%nat ->
     ip h <> "Unknown"%string ->
     [sample_hop "https://a.com/" 301 server_redirect "1.2.3.4";
      sample_hop "https://b.com/" 200 navigation "5.6.7.8";
      sample_hop "https://b.com/" 200 navigation "Unknown"] !! i = Some h).
Proof.
  assert (Hstep : tabPaths (step backfill_state backfill_event) !! 3 =
    Some (mkTabPath 3
            [sample_hop "https://a.com/" 301 server_redirect "1.2.3.4";
             sample_hop "https://b.com/" 200 navigation "5.6.7.8";
             sample_hop "https://b.com/" 200 navigation "Unknown"] 1000)).
  { vm_compute. reflexivity. }
  split; [exact Hstep|].
  intros i h Hi Hlen Hknown.
  exact (proj1 (known_ip_never_changes backfill_state backfill_event 3 _ _
                  ltac:(vm_compute; reflexivity) Hstep i h Hi Hlen) Hknown).
Defined.

Lemma ip_event_updates_first_unknown_witness :
  tabPaths (step backfill_state backfill_event) !! 4 =
    tabPaths backfill_state !! 4 /\
  tabPaths (step backfill_state backfill_event) !! 3 =
    Some (mkTabPath 3
            [sample_hop "https://a.com/" 301 server_redirect "1.2.3.4";
             sample_hop "https://b.com/" 200 navigation "5.6.7.8";
             sample_hop "https://b.com/" 200 navigation "Unknown"] 1000).
Proof.
  destruct (ip_event_updates_first_unknown backfill_state backfill_event 3
              "https://b.com/" "5.6.7.8" (or_introl eq_refl)
              ltac:(discriminate)) as [Hother _].
  split; [apply Hother; lia|]. vm_compute. reflexivity.
Defined.

(* ================================================================== *)
(** * Further properties of the scorer *)

Ltac nat_bools :=
  repeat match goal with
  | H : (_ <? _)%nat = true |- _ => apply Nat.ltb_lt in H
  | H : (_ <? _)%nat = false |- _ => apply Nat.ltb_ge in H
  | H : (_ =? _)%nat = true |- _ => apply Nat.eqb_eq in H
  | H : (_ =? _)%nat = false |- _ => apply Nat.eqb_neq in H
  end.

(** The score before clamping, as the deductions of [calculateChainScore]
    add up. *)
Definition raw_score (p : list RedirectItem) : Z :=
  let rc := length (List.filter is_redirect_kind p) in
  100 - Z.of_nat rc * 10 - (if (3 <? rc)%nat then 15 else 0)
  - Z.of_nat (length (List.filter is_temp_code p)) * 5
  - Z.of_nat (length (List.filter is_client_redirect p)) * 15
  - Z.of_nat (length (List.filter is_error_code p)) * 20
  - (if List.existsb is_http p then 10 else 0).

Lemma score_raw_score (p : list RedirectItem) :
  score (calculateChainScore p) = Z.max 0 (Z.min 100 (raw_score p)).
Proof.
  unfold calculateChainScore, raw_score. cbv zeta.
  repeat case_match; simplify_eq; simpl; nat_bools; try lia;
    repeat match goal with H : (_, _) = (_, _) |- _ => injection H as <- <- end;
    try lia.
Qed.

Lemma filter_length_sublist {T} (P : T -> bool) (l1 l2 : list T) :
  l1 `sublist_of` l2 ->
  (length (List.filter P l1) <= length (List.filter P l2))%nat.
Proof.
  induction 1 as [|x l1 l2 _ IH|x l1 l2 _ IH]; simpl; [lia| |];
    destruct (P x); simpl; lia.
Qed.

Lemma existsb_sublist {T} (P : T -> bool) (l1 l2 : list T) :
  l1 `sublist_of` l2 -> List.existsb P l1 = true -> List.existsb P l2 = true.
Proof.
  induction 1 as [|x l1 l2 _ IH|x l1 l2 _ IH]; simpl; [done| |];
    rewrite ?orb_true_iff; tauto.
Qed.

(** The chain score never goes up when hops are added: scoring a chain
    gives at most the score of any chain obtained from it by removing
    hops. *)
Theorem calculateChainScore_sublist_antitone (p p' : list RedirectItem) :
  p `sublist_of` p' ->
  score (calculateChainScore p') <= score (calculateChainScore p).
Proof.
  intros Hs. rewrite !score_raw_score. unfold raw_score.
  pose proof (filter_length_sublist is_redirect_kind _ _ Hs).
  pose proof (filter_length_sublist is_temp_code _ _ Hs).
  pose proof (filter_length_sublist is_client_redirect _ _ Hs).
  pose proof (filter_length_sublist is_error_code _ _ Hs).
  pose proof (existsb_sublist is_http _ _ Hs).
  destruct (List.existsb is_http p), (List.existsb is_http p');
    [| specialize (H3 eq_refl); discriminate | |];
    destruct (3 <? length (List.filter is_redirect_kind p))%nat eqn:E1,
      (3 <? length (List.filter is_redirect_kind p'))%nat eqn:E2;
    nat_bools; lia.
Qed.

Lemma find_hd_filter {T} (P : T -> bool) (l : list T) :
  List.find P l = hd_error (List.filter P l).
Proof.
  induction l as [|x l IH]; simpl; [reflexivity|]. destruct (P x); auto.
Qed.

Lemma filter_Permutation {T} (P : T -> bool) (l l' : list T) :
  Permutation l l' -> Permutation (List.filter P l) (List.filter P l').
Proof.
  induction 1 as [|x l l' _ IH|x y l|l l' l'' _ IH1 _ IH2]; simpl.
  - constructor.
  - destruct (P x); [constructor|]; exact IH.
  - destruct (P x), (P y); try constructor; reflexivity.
  - etransitivity; eassumption.
Qed.

Lemma existsb_Permutation {T} (P : T -> bool) (l l' : list T) :
  Permutation l l' -> List.existsb P l = List.existsb P l'.
Proof.
  induction 1 as [|x l l' _ IH|x y l|l l' l'' _ IH1 _ IH2]; simpl;
    try congruence; destruct (P x), (P y); reflexivity.
Qed.

(** The whole [ChainScore] (score, grade, issues and recommendations) does
    not depend on the order of the hops. *)
Theorem calculateChainScore_Permutation (p p' : list RedirectItem) :
  Permutation p p' -> calculateChainScore p = calculateChainScore p'.
Proof.
  intros Hp.
  pose proof (filter_Permutation is_redirect_kind _ _ Hp) as Hr.
  assert (Hlen : forall P, length (List.filter P p) = length (List.filter P p'))
    by (intros P; apply Permutation_length, filter_Permutation, Hp).
  unfold calculateChainScore. cbv zeta.
  rewrite !find_hd_filter, !Hlen, (existsb_Permutation is_http _ _ Hp).
  destruct (length (List.filter is_redirect_kind p') =? 1)%nat eqn:E1;
    [|reflexivity].
  apply Nat.eqb_eq in E1. rewrite <- Hlen in E1.
  destruct (List.filter is_redirect_kind p) as [|x [|y l]] eqn:Ef;
    try discriminate.
  apply Permutation_length_1_inv in Hr. rewrite Hr. reflexivity.
Qed.

Definition perfect_issue : ChainIssue :=
  mkIssue info "Perfect! Direct access with no redirects." low.
Definition good_issue : ChainIssue :=
  mkIssue info "Good! Single permanent redirect." low.

(** A hop that triggers none of the deductions of [calculateChainScore]. *)
Definition clean_hop (h : RedirectItem) : Prop :=
  type h = navigation /\ status_code h <> 302 /\ status_code h <> 307 /\
  status_code h < 400 /\ startsWith (url h) "http://" = false.

Lemma filter_nil_Forall {T} (P : T -> bool) (l : list T) :
  length (List.filter P l) = 0%nat <-> Forall (fun x => P x = false) l.
Proof.
  induction l as [|x l IH]; simpl.
  - split; [constructor | reflexivity].
  - rewrite Forall_cons. destruct (P x); simpl.
    + split; [discriminate | intros [H _]; discriminate].
    + rewrite IH. tauto.
Qed.

Lemma existsb_false_Forall {T} (P : T -> bool) (l : list T) :
  List.existsb P l = false <-> Forall (fun x => P x = false) l.
Proof.
  induction l as [|x l IH]; simpl.
  - split; [constructor | reflexivity].
  - rewrite Forall_cons, orb_false_iff, IH. reflexivity.
Qed.

Lemma clean_hops_counts (p : list RedirectItem) :
  Forall clean_hop p <->
  length (List.filter is_redirect_kind p) = 0%nat /\
  length (List.filter is_temp_code p) = 0%nat /\
  length (List.filter is_error_code p) = 0%nat /\
  List.existsb is_http p = false.
Proof.
  rewrite !filter_nil_Forall, existsb_false_Forall, <- !Forall_and.
  apply Forall_iff. intros h. unfold clean_hop, is_redirect_kind, is_temp_code,
    is_error_code, is_http.
  destruct (type h); rewrite ?orb_false_iff, ?Z.eqb_neq, ?Z.leb_gt;
    intuition (discriminate || lia).
Qed.

Lemma client_le_redirects (p : list RedirectItem) :
  (length (List.filter is_client_redirect p) <=
   length (List.filter is_redirect_kind p))%nat.
Proof.
  induction p as [|h p IH]; simpl; [lia|].
  unfold is_client_redirect at 1, is_redirect_kind at 1.
  destruct (type h); simpl; lia.
Qed.

(** The "Perfect!" info issue is reported exactly for chains in which no
    hop is a redirect, has status 302 or 307, has status 400 or more, or
    is on [http://]; such a chain scores 100, grade A, with that issue as
    its only issue and no recommendation. *)
Theorem calculateChainScore_perfect (p : list RedirectItem) :
  (In perfect_issue (issues (calculateChainScore p)) <-> Forall clean_hop p) /\
  (Forall clean_hop p ->
   calculateChainScore p = mkChainScore 100 A [perfect_issue] []).
Proof.
  rewrite clean_hops_counts. pose proof (client_le_redirects p) as Hcl.
  unfold calculateChainScore, perfect_issue. cbv zeta.
  repeat case_match; simplify_eq;
    repeat match goal with
    | H : _ && _ = true |- _ => apply andb_true_iff in H as [? ?]
    | H : _ && _ = false |- _ => apply andb_false_iff in H as [?|?]
    end;
    rewrite ?length_app in *; simpl in *; nat_bools; simpl;
    (split; [split; [intros Hin; repeat destruct Hin as [Hin|Hin];
                     try discriminate; try contradiction | ] |]);
    intros; try lia; try (destruct_and?; lia);
    try (destruct_and?; congruence);
    try (intuition discriminate).
Qed.

(** The "Good! Single permanent redirect." info issue is reported exactly
    when the chain has one redirect hop and that hop has status 301 or 308,
    whatever the other issues of the chain. *)
Theorem calculateChainScore_good (p : list RedirectItem) :
  In good_issue (issues (calculateChainScore p)) <->
  exists h, List.filter is_redirect_kind p = [h] /\
            (status_code h = 301 \/ status_code h = 308).
Proof.
  unfold calculateChainScore, good_issue. cbv zeta. rewrite find_hd_filter.
  destruct (List.filter is_redirect_kind p) as [|h [|h2 l]] eqn:Ef; simpl.
  - repeat case_match; simplify_eq; rewrite ?length_app in *; simpl in *;
      (split; [intros Hin; rewrite ?in_app_iff in Hin; simpl in Hin;
               intuition discriminate
              | intros [x [Hx _]]; discriminate]).
  - destruct (Z.eqb_spec (status_code h) 301), (Z.eqb_spec (status_code h) 308);
      simpl; repeat case_match; simplify_eq; rewrite ?in_app_iff; simpl;
      (split; [ | intros [x [Hx Hc]]; injection Hx as <-]);
      intuition (first [discriminate | eauto | lia]).
  - repeat case_match; simplify_eq; rewrite ?in_app_iff; simpl;
      (split; [intros Hin | intros [x [Hx _]]; discriminate]);
      intuition discriminate.
Qed.

Lemma grade_is_grade_of (p : list RedirectItem) :
  grade (calculateChainScore p) = grade_of (score (calculateChainScore p)).
Proof.
  unfold calculateChainScore. cbv zeta. repeat case_match; reflexivity.
Qed.

(** A chain with more than three redirect hops is graded D or F (its score
    is at most 45). *)
Theorem calculateChainScore_many_redirects (p : list RedirectItem) :
  (3 < length (List.filter is_redirect_kind p))%nat ->
  score (calculateChainScore p) <= 45 /\
  (grade (calculateChainScore p) = D \/ grade (calculateChainScore p) = F).
Proof.
  intros H.
  assert (Hs : score (calculateChainScore p) <= 45).
  { rewrite score_raw_score. unfold raw_score.
    destruct (Nat.ltb_spec 3 (length (List.filter is_redirect_kind p)));
      [|lia]. destruct (List.existsb is_http p); lia. }
  split; [exact Hs|].
  rewrite grade_is_grade_of. unfold grade_of.
  destruct (Z.leb_spec 90 (score (calculateChainScore p))); [lia|].
  destruct (Z.leb_spec 75 (score (calculateChainScore p))); [lia|].
  destruct (Z.leb_spec 60 (score (calculateChainScore p))); [lia|].
  destruct (Z.leb_spec 40 (score (calculateChainScore p))); auto.
Qed.

(** [getStatusObject] lists at most one CSS class: none below 200, else
    the one of the range the code falls in (every code from 500 up is a
    server error). *)
Theorem getStatusObject_class_names (c : Z) :
  (c < 200 -> classes (getStatusObject c) = []) /\
  (200 <= c < 300 -> classes (getStatusObject c) = ["status-success"%string]) /\
  (300 <= c < 400 -> classes (getStatusObject c) = ["status-redirect"%string]) /\
  (400 <= c < 500 -> classes (getStatusObject c) = ["status-client-error"%string]) /\
  (500 <= c -> classes (getStatusObject c) = ["status-server-error"%string]).
Proof.
  unfold getStatusObject. cbn [classes].
  repeat split; intros; zcases; simpl; try lia; reflexivity.
Qed.

(* ================================================================== *)
(** * Further properties of the background listeners *)

Lemma truthy_some_nonempty (v : string) :
  v <> ""%string -> truthy (Some v) = Some v.
Proof. intros Hv. simpl. destruct (String.eqb_spec v ""); congruence. Qed.

Lemma truthy_default_nonempty (o : option string) :
  match truthy o with Some v => v | None => "Unknown"%string end <> ""%string.
Proof.
  destruct (truthy o) as [v|] eqn:E; [exact (truthy_nonempty _ _ E)|discriminate].
Qed.

(** The hop a main-frame [onHeadersReceived] appends: it records the
    event's id, URL, status code and line, time stamp and parsed headers, the
    status classes of the code, and as IP the event's IP, else the one
    cached under [tabId-url], else ["Unknown"].  A 3xx code makes it a
    [server_redirect] with the redirect type computed from the code and the
    headers and the [Location] header as target; any other code makes it a
    [navigation] with neither.  The cached IP and timing of [tabId-url] are
    deleted, and the chains of the other tabs are untouched. *)
Theorem onHeadersReceived_hop (s : State) (tid : Z) (u : string) (code : Z)
    (line : string) (rh : option (list (string * option string)))
    (dip : option string) (clk : AddClock) (rid : string) :
  let hs := parseHeaders (match rh with Some l => l | None => [] end) in
  let key := requestKey tid u in
  let s' := step s (onHeadersReceived tid u "main_frame" code line rh dip clk rid) in
  (exists h, getTabPath s' tid = getTabPath s tid ++ [h] /\
     id h = rid /\ url h = u /\ status_code h = code /\ status_line h = line /\
     headers h = hs /\ timestamp h = clk_stamp clk /\
     statusObject h = getStatusObject code /\
     ip h = match truthy dip with
            | Some v => v
            | None => match truthy (requestIPs s !! key) with
                      | Some v => v
                      | None => "Unknown"%string
                      end
            end /\
     (300 <= code < 400 ->
        type h = server_redirect /\
        redirect_type h = Some (getRedirectType code hs) /\
        redirect_url h = getLocationHeader hs) /\
     (~ (300 <= code < 400) ->
        type h = navigation /\ redirect_type h = None /\ redirect_url h = None)) /\
  requestIPs s' !! key = None /\
  requestTimings s' !! key = None /\
  (forall t, t <> tid -> tabPaths s' !! t = tabPaths s !! t).
Proof.
  cbv zeta. unfold step. change (is_main_frame "main_frame") with true.
  cbn [negb]. set (dip' := match truthy dip with
                           | Some v => v
                           | None => match truthy (requestIPs s !! requestKey tid u) with
                                     | Some v => v
                                     | None => "Unknown"%string
                                     end
                           end).
  assert (Hdip : dip' <> ""%string).
  { unfold dip'. destruct (truthy dip) as [v|] eqn:E;
      [exact (truthy_nonempty _ _ E)|apply truthy_default_nonempty]. }
  unfold addRedirectItem, getTabPath, getOrCreateTabPath.
  cbn [in_ip in_url in_status_code in_status_line in_type in_redirect_type
       in_redirect_url in_headers].
  rewrite (truthy_some_nonempty _ Hdip). clearbody dip'. cbn.
  split; [|split; [|split]].
  - rewrite lookup_insert_eq.
    eexists. split; [destruct (tabPaths s !! tid); reflexivity|].
    cbn. do 8 (split; [reflexivity|]).
    split; intros Hc; zcases; cbn; try lia; auto.
  - apply lookup_delete_eq.
  - apply lookup_delete_eq.
  - intros t Ht. apply lookup_insert_ne. congruence.
Qed.

(** A top-frame navigation completion clears the tab's pending navigation
    and leaves the tab with a nonempty chain: if the chain was missing or
    empty it now holds one synthetic hop (the page's URL, status 200, a
    [navigation] with IP ["Unknown"], no headers and no redirect type);
    a nonempty chain is kept as it is. *)
Theorem navigationCompleted_chain (s : State) (tid : Z) (u : string)
    (clk : AddClock) (rid : string) :
  let s' := step s (navigationCompleted tid 0 u clk rid) in
  pendingNavigations s' !! tid = None /\
  getTabPath s' tid <> [] /\
  (getTabPath s tid = [] ->
     exists h, getTabPath s' tid = [h] /\ url h = u /\ status_code h = 200 /\
       type h = navigation /\ ip h = "Unknown"%string /\ headers h = [] /\
       redirect_type h = None) /\
  (getTabPath s tid <> [] -> tabPaths s' = tabPaths s).
Proof.
  cbv zeta. unfold step. cbn [Z.eqb negb]. unfold set_pendingNavigations. cbn [tabPaths pendingNavigations].
  unfold getTabPath, addRedirectItem, getOrCreateTabPath.
  destruct (tabPaths s !! tid) as [tp|] eqn:E;
    [destruct (path tp) as [|h0 t0] eqn:Ep|]; cbn;
    rewrite ?E, ?Ep, ?lookup_insert_eq; cbn; rewrite ?Ep; cbn.
  all: split; [apply lookup_delete_eq|].
  all: split; [intros Hn; rewrite ?E, ?Ep in Hn; discriminate|].
  all: split; intros Hp; rewrite ?E, ?Ep in Hp; try congruence.
  all: eexists; split; [reflexivity|]; repeat split.
Qed.

(** ** An invariant of every reachable background state *)

(** The shape of every hop the listeners record: its status classes are
    those of its code, its IP is a nonempty string, its timing is
    [{start, end, end - start}], and it is either a [server_redirect] with a
    3xx code whose redirect type and target are computed from its own
    headers, or a [navigation] with a non-3xx code and neither. *)
Definition hop_wf (h : RedirectItem) : Prop :=
  statusObject h = getStatusObject (status_code h) /\
  ip h <> ""%string /\
  (exists st en, timing h = Some (mkTiming st en (en - st))) /\
  ((type h = server_redirect /\ 300 <= status_code h < 400 /\
    redirect_type h = Some (getRedirectType (status_code h) (headers h)) /\
    redirect_url h = getLocationHeader (headers h)) \/
   (type h = navigation /\ ~ (300 <= status_code h < 400) /\
    redirect_type h = None /\ redirect_url h = None)).

Definition chain_wf (t : Z) (tp : TabRedirectPath) : Prop :=
  tabId tp = t /\ Forall hop_wf (path tp).

Definition state_wf (s : State) : Prop := map_Forall chain_wf (tabPaths s).

(** The background state when the service worker starts: four empty maps. *)
Definition initial_state : State := mkState ∅ ∅ ∅ ∅.

(** The item a call site hands to [addRedirectItem] has the hop shape. *)
Definition item_wf (item : ItemIn) : Prop :=
  (in_type item = server_redirect /\ 300 <= in_status_code item < 400 /\
   in_redirect_type item =
     Some (getRedirectType (in_status_code item) (in_headers item)) /\
   in_redirect_url item = getLocationHeader (in_headers item)) \/
  (in_type item = navigation /\ ~ (300 <= in_status_code item < 400) /\
   in_redirect_type item = None /\ in_redirect_url item = None).

Lemma getOrCreateTabPath_wf (s : State) (tid now : Z) :
  state_wf s -> chain_wf tid (getOrCreateTabPath s tid now).
Proof.
  unfold getOrCreateTabPath. intros Hs.
  destruct (tabPaths s !! tid) as [tp|] eqn:E.
  - exact (Hs _ _ E).
  - split; [reflexivity|constructor].
Qed.

Lemma addRedirectItem_wf (s : State) (tid : Z) (item : ItemIn) (clk : AddClock)
    (rid : string) :
  state_wf s -> item_wf item -> state_wf (addRedirectItem s tid item clk rid).
Proof.
  intros Hs Hi. unfold addRedirectItem, state_wf. cbn [tabPaths].
  destruct (getOrCreateTabPath_wf s tid (clk_create clk) Hs) as [Hid Hp].
  apply map_Forall_insert_2; [|exact Hs].
  split; [exact Hid|]. cbn [path]. apply Forall_app; split; [exact Hp|].
  constructor; [|constructor].
  split; [reflexivity|]. split; [apply truthy_default_nonempty|].
  split; [eexists _, _; reflexivity|]. exact Hi.
Qed.

Lemma set_ip_wf (h : RedirectItem) (v : string) :
  v <> ""%string -> hop_wf h -> hop_wf (set_ip h v).
Proof. intros Hv (H1 & _ & H3 & H4). repeat split; auto. Qed.

Lemma backfill_ip_wf (u v : string) (l : list RedirectItem) :
  v <> ""%string -> Forall hop_wf l -> Forall hop_wf (backfill_ip u v l).
Proof.
  intros Hv. induction 1 as [|h t Hh Ht IH]; simpl; [constructor|].
  destruct (String.eqb (url h) u && String.eqb (ip h) "Unknown");
    constructor; auto using set_ip_wf.
Qed.

Lemma backfill_tab_wf (s : State) (tid : Z) (u v : string) :
  v <> ""%string -> state_wf s -> state_wf (backfill_tab s tid u v).
Proof.
  intros Hv Hs. unfold backfill_tab.
  destruct (tabPaths s !! tid) as [tp|] eqn:E; [|exact Hs].
  unfold state_wf. cbn. apply map_Forall_insert_2; [|exact Hs].
  destruct (Hs _ _ E) as [Hid Hp]. split; [exact Hid|].
  apply backfill_ip_wf; assumption.
Qed.

Lemma clearTabPath_wf (s : State) (tid now : Z) :
  state_wf s -> state_wf (clearTabPath s tid now).
Proof.
  intros Hs. unfold clearTabPath, state_wf. cbn.
  apply map_Forall_insert_2; [split; [reflexivity|constructor]|exact Hs].
Qed.

Lemma step_wf (s : State) (e : Event) : state_wf s -> state_wf (step s e).
Proof.
  intros Hs. destruct e; unfold step.
  - destruct (negb _); exact Hs.
  - destruct (negb _); [exact Hs|].
    destruct (truthy dip) as [v|] eqn:E; [|exact Hs].
    apply backfill_tab_wf; [exact (truthy_nonempty _ _ E)|exact Hs].
  - destruct (negb _); [exact Hs|]. destruct (isNewNavigation s tid u); [|exact Hs].
    exact (clearTabPath_wf s tid now Hs).
  - destruct (negb _); [exact Hs|]. cbv zeta.
    unfold state_wf; cbn [tabPaths set_requestIPs].
    apply addRedirectItem_wf; [exact Hs|]. unfold item_wf; cbn.
    destruct (Z.leb_spec 300 statusCode), (Z.ltb_spec statusCode 400);
      cbn; [left|right..]; repeat split; try reflexivity; lia.
  - destruct (negb _); [exact Hs|].
    destruct (truthy dip) as [v|] eqn:E; [|exact Hs].
    apply backfill_tab_wf; [exact (truthy_nonempty _ _ E)|exact Hs].
  - destruct (negb _); [exact Hs|].
    assert (Hs1 : state_wf (set_pendingNavigations s
                              (delete tid (pendingNavigations s))))
      by exact Hs.
    assert (Hi : item_wf (mkItemIn u 200 "HTTP/1.1 200 OK" None navigation
                            None None [])).
    { right. cbn. repeat split; lia. }
    destruct (tabPaths _ !! tid) as [tp|];
      [destruct (path tp)|]; auto using addRedirectItem_wf.
  - unfold state_wf. cbn. do 2 apply map_Forall_delete. exact Hs.
  - exact (clearTabPath_wf s tid now Hs).
  - exact Hs.
Qed.

(** Every state the background reaches from its start, through any
    sequence of browser events and messages, stores under each tab id a
    chain carrying that tab id whose hops all have the shape [hop_wf]: in
    particular the listeners never record a [client_redirect], every
    redirect hop has a 3xx code, and no hop has an empty IP. *)
Theorem reachable_state_wf (es : list Event) :
  state_wf (run initial_state es).
Proof.
  unfold run. assert (H0 : state_wf initial_state) by apply map_Forall_empty.
  revert H0. generalize initial_state. induction es as [|e es IH]; intros s Hs;
    [exact Hs|]. simpl. apply IH, step_wf, Hs.
Qed.

(* ================================================================== *)
(** * Persistent history and settings ([src/utils/pdf-export.ts])

    [chrome.storage.local] holds at most two keys, [redirectwise_history]
    and [redirectwise_settings]; a missing key reads as [undefined].
    [uuidv4()] is an argument, [Date.now()] too.  Every call to
    [chrome.storage.local.get] or [.set] may fail (its promise rejects,
    e.g. [set] over the storage quota): each function takes one flag per
    storage call it makes, [true] when the call succeeds, and follows its
    [catch] branch otherwise. *)

Definition MAX_HISTORY_ENTRIES : nat := 500.

Record HistoryEntry := mkEntry {
  he_id : string;
  originalUrl : string;
  finalUrl : string;
  he_path : list RedirectItem;
  he_timestamp : Z;
  chainScore : ChainScore;
  totalTime : Z;
  redirectCount : Z;
  tags : option (list string);
  notes : option string;
  isFavorite : option bool;
}.

(** A settings object as the code handles it: each field holds a value or
    [undefined] ([None]). *)
Record Settings := mkSettings {
  darkMode : option bool;
  autoSaveHistory : option bool;
  maxHistoryEntries : option Z;
}.

(** A [Partial<Settings>] object: [None] for an absent key, [Some v] for a
    present key with value [v], itself possibly [undefined]. *)
Record PartialSettings := mkPartialSettings {
  p_darkMode : option (option bool);
  p_autoSaveHistory : option (option bool);
  p_maxHistoryEntries : option (option Z);
}.

Record Storage := mkStorage {
  st_history : option (list HistoryEntry);
  st_settings : option PartialSettings;
}.

Definition set_history (st : Storage) (h : list HistoryEntry) : Storage :=
  mkStorage (Some h) (st_settings st).

Definition defaultSettings : Settings :=
  mkSettings (Some false) (Some true) (Some (Z.of_nat MAX_HISTORY_ENTRIES)).

(** [{ ...s, ...p }]: a present key overrides, even with [undefined]. *)
Definition spread_settings (s : Settings) (p : PartialSettings) : Settings :=
  mkSettings (match p_darkMode p with Some v => v | None => darkMode s end)
    (match p_autoSaveHistory p with Some v => v | None => autoSaveHistory s end)
    (match p_maxHistoryEntries p with Some v => v | None => maxHistoryEntries s end).

(** The object [chrome.storage] keeps for a written settings object: it
    is serialised as JSON is, which drops the keys whose value is
    [undefined]. *)
Definition stored_settings (s : Settings) : PartialSettings :=
  mkPartialSettings (option_map Some (darkMode s))
    (option_map Some (autoSaveHistory s))
    (option_map Some (maxHistoryEntries s)).

(** [getHistory]: [result[HISTORY_STORAGE_KEY] || []] (an array is
    truthy); [[]] when the [get] fails. *)
Definition getHistory (st : Storage) (get_ok : bool) : list HistoryEntry :=
  if get_ok then match st_history st with Some h => h | None => [] end
  else [].

(** [saveHistoryEntry]: the returned entry (or [null]) and the new storage;
    [get_ok] is the [get] of its [getHistory] call, [set_ok] its [set]. *)
Definition saveHistoryEntry (st : Storage) (p : list RedirectItem)
    (uuid : string) (now : Z) (get_ok set_ok : bool)
    : option HistoryEntry * Storage :=
  match p with
  | [] => (None, st)
  | first :: _ =>
      let history := getHistory st get_ok in
      let originalUrl := match truthy (Some (url first)) with
                         | Some v => v | None => ""%string end in
      let finalUrl := match truthy (Some (url (List.last p first))) with
                      | Some v => v | None => originalUrl end in
      let chainScore := calculateChainScore p in
      let totalTime :=
        fold_left (fun acc item =>
          acc + match timing item with
                | Some t => if duration t =? 0 then 0 else duration t
                | None => 0
                end) p 0 in
      let redirectCount := Z.of_nat (length (List.filter
        (fun q => match type q with
                  | server_redirect | client_redirect => true
                  | navigation => false
                  end) p)) in
      let entry := mkEntry uuid originalUrl finalUrl p now chainScore totalTime
                     redirectCount None None (Some false) in
      if set_ok
      then (Some entry,
            set_history st (firstn MAX_HISTORY_ENTRIES (entry :: history)))
      else (None, st)
  end.

(** [deleteHistoryEntry] *)
Definition deleteHistoryEntry (st : Storage) (i : string) (get_ok set_ok : bool)
    : bool * Storage :=
  let filtered := List.filter (fun e => negb (String.eqb (he_id e) i))
                    (getHistory st get_ok) in
  if set_ok then (true, set_history st filtered) else (false, st).

(** The [updates] object of [updateHistoryEntry]: an absent key is [None];
    a present key carries its value, possibly [undefined]. *)
Record EntryUpdates := mkEntryUpdates {
  u_notes : option (option string);
  u_tags : option (option (list string));
  u_isFavorite : option (option bool);
}.

(** [{ ...entry, ...updates }] *)
Definition spread_updates (e : HistoryEntry) (u : EntryUpdates) : HistoryEntry :=
  mkEntry (he_id e) (originalUrl e) (finalUrl e) (he_path e) (he_timestamp e)
    (chainScore e) (totalTime e) (redirectCount e)
    (match u_tags u with Some v => v | None => tags e end)
    (match u_notes u with Some v => v | None => notes e end)
    (match u_isFavorite u with Some v => v | None => isFavorite e end).

(** [updateHistoryEntry] *)
Definition updateHistoryEntry (st : Storage) (i : string) (u : EntryUpdates)
    (get_ok set_ok : bool) : bool * Storage :=
  let history := getHistory st get_ok in
  match list_find (fun e => he_id e = i) history with
  | None => (false, st)
  | Some (index, e) =>
      if set_ok
      then (true, set_history st (<[index := spread_updates e u]> history))
      else (false, st)
  end.

(** [clearHistory] *)
Definition clearHistory (st : Storage) (set_ok : bool) : bool * Storage :=
  if set_ok then (true, set_history st []) else (false, st).

(** [getSettings]: [{ ...defaultSettings, ...result[SETTINGS_STORAGE_KEY] }]
    (spreading [undefined] adds nothing); [defaultSettings] when the [get]
    fails. *)
Definition getSettings (st : Storage) (get_ok : bool) : Settings :=
  if get_ok then
    match st_settings st with
    | Some p => spread_settings defaultSettings p
    | None => defaultSettings
    end
  else defaultSettings.

(** [saveSettings] *)
Definition saveSettings (st : Storage) (p : PartialSettings) (get_ok set_ok : bool)
    : bool * Storage :=
  let updated := spread_settings (getSettings st get_ok) p in
  if set_ok
  then (true, mkStorage (st_history st) (Some (stored_settings updated)))
  else (false, st).

Record GradeDistribution := mkGradeDistribution {
  gA : nat; gB : nat; gC : nat; gD : nat; gF : nat;
}.

Definition bump_grade (d : GradeDistribution) (g : Grade) : GradeDistribution :=
  match g with
  | A => mkGradeDistribution (S (gA d)) (gB d) (gC d) (gD d) (gF d)
  | B => mkGradeDistribution (gA d) (S (gB d)) (gC d) (gD d) (gF d)
  | C => mkGradeDistribution (gA d) (gB d) (S (gC d)) (gD d) (gF d)
  | D => mkGradeDistribution (gA d) (gB d) (gC d) (S (gD d)) (gF d)
  | F => mkGradeDistribution (gA d) (gB d) (gC d) (gD d) (S (gF d))
  end.

Record HistoryStats := mkHistoryStats {
  totalEntries : nat;
  totalRedirects : Z;
  avgScore : Z;
  gradeDistribution : GradeDistribution;
  favorites : nat;
}.

(** [Math.round(x / n)] for an integer [x] and [n > 0]:
    [floor(x / n + 1/2) = floor((2x + n) / 2n)]. *)
Definition round_div (x : Z) (n : Z) : Z := (2 * x + n) / (2 * n).

(** The single pass of [getHistoryStats]. *)
Definition stats_loop (acc : GradeDistribution * Z * Z * nat) (e : HistoryEntry)
    : GradeDistribution * Z * Z * nat :=
  let '(dist, totalRedirects, totalScore, favorites) := acc in
  (bump_grade dist (grade (chainScore e)),
   totalRedirects + redirectCount e,
   totalScore + score (chainScore e),
   match isFavorite e with Some true => S favorites | _ => favorites end).

(** [getHistoryStats] *)
Definition getHistoryStats (st : Storage) (get_ok : bool) : HistoryStats :=
  let history := getHistory st get_ok in
  let '(dist, totalRedirects, totalScore, favorites) :=
    fold_left stats_loop history (mkGradeDistribution 0 0 0 0 0, 0, 0, 0%nat) in
  mkHistoryStats (length history) totalRedirects
    (if (0 <? length history)%nat
     then round_div totalScore (Z.of_nat (length history)) else 0)
    dist favorites.

(** ** Properties of the storage utilities *)

Lemma calculateChainScore_score_range (p : list RedirectItem) :
  0 <= score (calculateChainScore p) <= 100.
Proof. rewrite score_raw_score. lia. Qed.

Lemma firstn_cons_length {T} (n : nat) (x : T) (l : list T) :
  length (firstn n (x :: l)) = Nat.min n (S (length l)).
Proof. rewrite length_firstn. reflexivity. Qed.

Lemma getHistory_set_history (st : Storage) (h : list HistoryEntry) :
  getHistory (set_history st h) true = h.
Proof. reflexivity. Qed.

(** [saveHistoryEntry] writes nothing whenever it returns [null], which it
    does for an empty chain and when its [set] fails.  For a nonempty
    chain whose [set] succeeds it returns an entry that stores the chain,
    its score (within [0..100]), the first hop's URL as original URL, the
    last hop's URL (or the original URL if that is empty) as final URL,
    the count of server and client redirect hops (the count the score
    deducts 10 points each for), and the favourite flag [false]; the stored
    history becomes that entry followed by the history [getHistory] read,
    cut to the first 500.  If that read failed, the earlier history is
    lost: only the new entry is stored. *)
Theorem saveHistoryEntry_spec (st : Storage) (p : list RedirectItem)
    (uuid : string) (now : Z) (get_ok set_ok : bool) :
  let r := saveHistoryEntry st p uuid now get_ok set_ok in
  (p = [] -> r = (None, st)) /\
  (fst r = None -> snd r = st) /\
  (set_ok = false -> r = (None, st)) /\
  (forall first rest, p = first :: rest -> set_ok = true ->
     exists e,
       fst r = Some e /\
       getHistory (snd r) true = firstn 500 (e :: getHistory st get_ok) /\
       length (getHistory (snd r) true) =
         Nat.min 500 (S (length (getHistory st get_ok))) /\
       (get_ok = false -> getHistory (snd r) true = [e]) /\
       st_settings (snd r) = st_settings st /\
       he_id e = uuid /\ he_path e = p /\ he_timestamp e = now /\
       chainScore e = calculateChainScore p /\
       0 <= score (chainScore e) <= 100 /\
       originalUrl e = url first /\
       finalUrl e = (if String.eqb (url (List.last p first)) "" then url first
                     else url (List.last p first)) /\
       redirectCount e = Z.of_nat (length (List.filter is_redirect_kind p)) /\
       isFavorite e = Some false).
Proof.
  cbv zeta. split; [intros ->; reflexivity|].
  split.
  { unfold saveHistoryEntry. destruct p; [reflexivity|].
    destruct set_ok; [discriminate|reflexivity]. }
  split.
  { intros ->. unfold saveHistoryEntry. destruct p; reflexivity. }
  intros first rest -> ->. unfold saveHistoryEntry. cbv zeta.
  remember (List.last (first :: rest) first) as L eqn:HL. clear HL.
  eexists. split; [reflexivity|]. cbn [snd fst].
  rewrite getHistory_set_history.
  split; [reflexivity|]. split; [apply firstn_cons_length|].
  split; [intros ->; reflexivity|].
  split; [reflexivity|]. cbn.
  do 4 (split; [reflexivity|]).
  split; [apply calculateChainScore_score_range|].
  split; [destruct (String.eqb_spec (url first) ""); congruence|].
  split.
  { destruct (String.eqb_spec (url L) ""); cbn; [|reflexivity].
    destruct (String.eqb_spec (url first) ""); congruence. }
  split; reflexivity.
Qed.

Lemma map_insert {T U} (f : T -> U) (l : list T) (k : nat) (x : T) :
  map f (<[k := x]> l) = <[k := f x]> (map f l).
Proof.
  revert k. induction l as [|y l IH]; intros [|k]; simpl; f_equal; auto.
Qed.

Lemma lookup_map {T U} (f : T -> U) (l : list T) (k : nat) :
  map f l !! k = option_map f (l !! k).
Proof.
  revert k. induction l as [|y l IH]; intros [|k]; simpl; auto.
Qed.

Lemma filter_insert_dropped {T} (P : T -> bool) (l : list T) (k : nat) (x y : T) :
  l !! k = Some y -> P x = false -> P y = false ->
  List.filter P (<[k := x]> l) = List.filter P l.
Proof.
  revert k. induction l as [|z l IH]; intros [|k] Hk Hx Hy; simpl in *;
    try discriminate.
  - injection Hk as ->. rewrite Hx, Hy. reflexivity.
  - destruct (P z); [f_equal|]; eauto.
Qed.

(** [updateHistoryEntry] writes nothing whenever it answers [false].  It
    answers [true] exactly when its [set] succeeds and the history its
    [getHistory] read has an entry with the id (so never when that read
    fails).  Then it replaces the FIRST entry with that id by the entry
    with [updates] spread over it, leaving every other position as it
    was; the stored ids, in order, are those read. *)
Theorem updateHistoryEntry_spec (st : Storage) (i : string) (u : EntryUpdates)
    (get_ok set_ok : bool) :
  let h := getHistory st get_ok in
  let r := updateHistoryEntry st i u get_ok set_ok in
  (fst r = false -> snd r = st) /\
  (fst r = true <-> set_ok = true /\ Exists (fun e => he_id e = i) h) /\
  (set_ok = true ->
   forall k e, h !! k = Some e -> he_id e = i ->
     (forall j e', (j < k)%nat -> h !! j = Some e' -> he_id e' <> i) ->
     r = (true, set_history st (<[k := spread_updates e u]> h))) /\
  (fst r = true -> map he_id (getHistory (snd r) true) = map he_id h).
Proof.
  cbv zeta. unfold updateHistoryEntry. cbv zeta.
  split; [|split; [|split]].
  - destruct (list_find _ _) as [[k e]|]; [|reflexivity].
    destruct set_ok; [intros H; discriminate H|reflexivity].
  - destruct (list_find _ _) as [[k e]|] eqn:E.
    + apply list_find_Some in E as (Hk & Hi & _).
      destruct set_ok; cbn.
      * split; [|intros _; reflexivity]. intros _. split; [reflexivity|].
        apply Exists_exists. exists e.
        split; [eapply list_elem_of_lookup_2; eauto|exact Hi].
      * split; [intros H; discriminate H|intros [H _]; discriminate H].
    + apply list_find_None in E. cbn. split; [discriminate|].
      intros [_ Hx]. apply Exists_exists in Hx as (x & Hx & Hi).
      rewrite Forall_forall in E. destruct (E x Hx Hi).
  - intros -> k e Hk Hi Hj.
    replace (list_find _ _) with (Some (k, e)); [reflexivity|]. symmetry.
    apply list_find_Some. split; [exact Hk|]. split; [exact Hi|].
    intros j e' Hj' Hlt. exact (Hj j e' Hlt Hj').
  - destruct (list_find _ _) as [[k e]|] eqn:E; [|discriminate].
    destruct set_ok; [|discriminate]. intros _. cbn [snd].
    rewrite getHistory_set_history.
    apply list_find_Some in E as (Hk & _ & _).
    rewrite map_insert. apply list_insert_id.
    rewrite lookup_map, Hk. reflexivity.
Qed.

(** Whenever a deletion of an id is written, deleting it after an update
    of that id (written or not) leaves the storage exactly as deleting it
    straight away: an update never changes an entry's id, so it never
    saves an entry from the deletion nor exposes another. *)
Theorem deleteHistoryEntry_after_update (st : Storage) (i : string)
    (u : EntryUpdates) (u_get u_set d_get d_set : bool) :
  d_set = true ->
  snd (deleteHistoryEntry (snd (updateHistoryEntry st i u u_get u_set)) i d_get d_set) =
  snd (deleteHistoryEntry st i d_get d_set).
Proof.
  intros ->. unfold updateHistoryEntry. cbv zeta.
  destruct (list_find _ _) as [[k e]|] eqn:E; [|reflexivity].
  destruct u_set; [|reflexivity].
  apply list_find_Some in E as (Hk & Hi & _).
  unfold deleteHistoryEntry. cbn [snd].
  destruct d_get; [|reflexivity].
  rewrite getHistory_set_history. unfold set_history at 1 3. cbn [st_settings].
  destruct u_get; [|discriminate].
  rewrite (filter_insert_dropped _ _ _ _ e Hk); [reflexivity| |]; cbn;
    rewrite Hi, String.eqb_refl; reflexivity.
Qed.

(** A failed read of the history inside a write loses the history: a
    [saveHistoryEntry] whose [set] succeeds then stores only the new entry,
    a [deleteHistoryEntry] whose [set] succeeds stores the empty history,
    and an [updateHistoryEntry] answers [false] and writes nothing, even
    when the stored history has an entry with the id. *)
Theorem history_read_failure (st : Storage) (p : list RedirectItem)
    (uuid : string) (now : Z) (i : string) (u : EntryUpdates) :
  (p <> [] -> exists e,
     saveHistoryEntry st p uuid now false true = (Some e, set_history st [e])) /\
  deleteHistoryEntry st i false true = (true, set_history st []) /\
  updateHistoryEntry st i u false true = (false, st).
Proof.
  split; [|split; reflexivity].
  intros Hp. destruct p as [|first rest]; [congruence|].
  eexists. reflexivity.
Qed.

Lemma filter_sublist {T} (P : T -> bool) (l : list T) :
  List.filter P l `sublist_of` l.
Proof.
  induction l as [|x l IH]; simpl; [constructor|].
  destruct (P x); constructor; exact IH.
Qed.

Definition dist_total (d : GradeDistribution) : nat :=
  (gA d + gB d + gC d + gD d + gF d)%nat.

Definition score_in_range (e : HistoryEntry) : Prop :=
  0 <= score (chainScore e) <= 100.

Lemma stats_loop_fold (l : list HistoryEntry) (d : GradeDistribution)
    (r t : Z) (f : nat) :
  let '(d', r', t', f') := fold_left stats_loop l (d, r, t, f) in
  dist_total d' = (dist_total d + length l)%nat /\
  (f' <= f + length l)%nat /\
  (Forall score_in_range l -> t <= t' <= t + 100 * Z.of_nat (length l)).
Proof.
  revert d r t f. induction l as [|e l IH]; intros d r t f; simpl.
  - split; [lia|]. split; [lia|]. intros _. lia.
  - specialize (IH (bump_grade d (grade (chainScore e))) (r + redirectCount e)
                  (t + score (chainScore e))
                  (match isFavorite e with Some true => S f | _ => f end)).
    destruct (fold_left _ _ _) as [[[d' r'] t'] f'].
    destruct IH as (H1 & H2 & H3). split; [|split].
    + rewrite H1. destruct (grade (chainScore e)); unfold dist_total; simpl; lia.
    + destruct (isFavorite e) as [[|]|]; lia.
    + intros Hf. inversion Hf as [|? ? He Hl]; subst. specialize (H3 Hl).
      unfold score_in_range in He. lia.
Qed.

(** [getHistoryStats]: the grade counts add up to the number of entries,
    the favourites are at most that many, the average is 0 for an empty
    history (also the one a failed read gives), and when every stored
    score lies in [0..100] the rounded average does too. *)
Theorem getHistoryStats_spec (st : Storage) (get_ok : bool) :
  let s := getHistoryStats st get_ok in
  totalEntries s = length (getHistory st get_ok) /\
  dist_total (gradeDistribution s) = totalEntries s /\
  (favorites s <= totalEntries s)%nat /\
  (getHistory st get_ok = [] -> avgScore s = 0) /\
  (Forall score_in_range (getHistory st get_ok) -> 0 <= avgScore s <= 100).
Proof.
  cbv zeta. unfold getHistoryStats. cbv zeta.
  pose proof (stats_loop_fold (getHistory st get_ok) (mkGradeDistribution 0 0 0 0 0)
                0 0 0) as Hf.
  destruct (fold_left _ _ _) as [[[d r] t] f].
  destruct Hf as (H1 & H2 & H3). cbn [totalEntries gradeDistribution favorites avgScore].
  split; [reflexivity|]. split; [exact H1|]. split; [lia|]. split.
  - intros ->. reflexivity.
  - intros Hr. specialize (H3 Hr).
    destruct (Nat.ltb_spec 0 (length (getHistory st get_ok))) as [Hn|Hn]; [|lia].
    unfold round_div. set (n := Z.of_nat (length (getHistory st get_ok))).
    assert (0 < n) by lia. split.
    + apply Z.div_pos; lia.
    + assert ((2 * t + n) / (2 * n) < 101); [|lia].
      apply Z.div_lt_upper_bound; lia.
Qed.

(** The storage-writing calls of the UI, each with the outcomes of its
    storage calls. *)
Inductive StorageOp :=
  | opSaveHistoryEntry (p : list RedirectItem) (uuid : string) (now : Z)
      (get_ok set_ok : bool)
  | opDeleteHistoryEntry (i : string) (get_ok set_ok : bool)
  | opUpdateHistoryEntry (i : string) (u : EntryUpdates) (get_ok set_ok : bool)
  | opClearHistory (set_ok : bool)
  | opSaveSettings (p : PartialSettings) (get_ok set_ok : bool).

Definition apply_op (st : Storage) (op : StorageOp) : Storage :=
  match op with
  | opSaveHistoryEntry p uuid now g w => snd (saveHistoryEntry st p uuid now g w)
  | opDeleteHistoryEntry i g w => snd (deleteHistoryEntry st i g w)
  | opUpdateHistoryEntry i u g w => snd (updateHistoryEntry st i u g w)
  | opClearHistory w => snd (clearHistory st w)
  | opSaveSettings p g w => snd (saveSettings st p g w)
  end.

(** A stored entry as [saveHistoryEntry] builds it. *)
Definition entry_wf (e : HistoryEntry) : Prop :=
  he_path e <> [] /\
  chainScore e = calculateChainScore (he_path e) /\
  redirectCount e = Z.of_nat (length (List.filter is_redirect_kind (he_path e))).

(** What a successful read of the history finds. *)
Definition history_wf (st : Storage) : Prop :=
  (length (getHistory st true) <= MAX_HISTORY_ENTRIES)%nat /\
  Forall entry_wf (getHistory st true).

Lemma getHistory_wf (st : Storage) (g : bool) :
  history_wf st ->
  (length (getHistory st g) <= MAX_HISTORY_ENTRIES)%nat /\
  Forall entry_wf (getHistory st g).
Proof.
  intros H. destruct g; [exact H|].
  split; [unfold MAX_HISTORY_ENTRIES; cbn; lia|constructor].
Qed.

Lemma apply_op_wf (st : Storage) (op : StorageOp) :
  history_wf st -> history_wf (apply_op st op).
Proof.
  intros Hwf. destruct op as [p uuid now g w|i g w|i u g w|w|p g w];
    cbn [apply_op].
  - destruct (getHistory_wf st g Hwf) as [Hlen Hall].
    destruct p as [|first rest] eqn:Ep; [exact Hwf|].
    unfold saveHistoryEntry. cbv zeta. destruct w; [|exact Hwf]. cbn [snd].
    unfold history_wf. rewrite getHistory_set_history. split.
    + rewrite length_firstn. unfold MAX_HISTORY_ENTRIES. lia.
    + apply Forall_take. constructor; [|exact Hall].
      split; [discriminate|]. split; reflexivity.
  - destruct (getHistory_wf st g Hwf) as [Hlen Hall].
    unfold deleteHistoryEntry. cbv zeta. destruct w; [|exact Hwf]. cbn [snd].
    unfold history_wf. rewrite getHistory_set_history.
    pose proof (filter_sublist (fun e => negb (String.eqb (he_id e) i))
                  (getHistory st g)) as Hs.
    split; [apply sublist_length in Hs; lia|].
    apply List.Forall_forall. intros e He. apply filter_In in He as [He _].
    exact (proj1 (List.Forall_forall _ _) Hall e He).
  - destruct (getHistory_wf st g Hwf) as [Hlen Hall].
    unfold updateHistoryEntry. cbv zeta.
    destruct (list_find _ _) as [[k e]|] eqn:E; [|exact Hwf].
    destruct w; [|exact Hwf].
    apply list_find_Some in E as (Hk & _ & _). cbn [snd].
    unfold history_wf. rewrite getHistory_set_history. split.
    + rewrite length_insert. exact Hlen.
    + apply Forall_insert; [exact Hall|].
      exact (Forall_lookup_1 _ _ _ _ Hall Hk).
  - unfold clearHistory. destruct w; [|exact Hwf].
    split; cbn; [lia|constructor].
  - unfold saveSettings. destruct w; exact Hwf.
Qed.

(** From a fresh install (nothing stored), any sequence of the UI's
    storage writes, each of whose storage calls may fail, keeps at most
    500 history entries, each holding a nonempty chain with the score
    [calculateChainScore] gives it and its redirect-hop count; so the
    average score of [getHistoryStats] always lies in [0..100]. *)
Theorem storage_ops_wf (ops : list StorageOp) :
  let st := fold_left apply_op ops (mkStorage None None) in
  history_wf st /\ (forall g, 0 <= avgScore (getHistoryStats st g) <= 100).
Proof.
  cbv zeta.
  assert (Hwf : history_wf (fold_left apply_op ops (mkStorage None None))).
  { assert (H0 : history_wf (mkStorage None None))
      by (split; cbn; [unfold MAX_HISTORY_ENTRIES; lia|constructor]).
    revert H0. generalize (mkStorage None None).
    induction ops as [|op ops IH]; intros st Hst; [exact Hst|].
    simpl. apply IH, apply_op_wf, Hst. }
  split; [exact Hwf|]. intros g.
  destruct (getHistoryStats_spec (fold_left apply_op ops (mkStorage None None)) g)
    as (_ & _ & _ & _ & Havg).
  apply Havg. destruct (getHistory_wf _ g Hwf) as [_ Hall].
  eapply Forall_impl; [exact Hall|]. intros e (_ & He & _).
  unfold score_in_range. rewrite He. apply calculateChainScore_score_range.
Qed.

(* ------------------------------------------------------------------ *)
(** ** Witnesses *)

Definition hops_302_tail : list RedirectItem :=
  [sample_hop "https://www.a.com/home/" 200 navigation "1.2.3.4"].

Definition hops_four_redirects : list RedirectItem :=
  hops_302 ++ [sample_hop "https://b.com/" 301 server_redirect "1.2.3.4"].

Lemma calculateChainScore_sublist_antitone_witness :
  hops_302_tail `sublist_of` hops_302 /\
  score (calculateChainScore hops_302) <= score (calculateChainScore hops_302_tail).
Proof.
  assert (Hs : hops_302_tail `sublist_of` hops_302).
  { unfold hops_302_tail, hops_302.
    do 3 apply sublist_cons. apply sublist_skip, sublist_nil. }
  split; [exact Hs|]. apply (calculateChainScore_sublist_antitone _ _ Hs).
Defined.

Lemma calculateChainScore_Permutation_witness :
  Permutation hops_302 (rev hops_302) /\
  calculateChainScore hops_302 = calculateChainScore (rev hops_302).
Proof.
  assert (Hp : Permutation hops_302 (rev hops_302)) by apply Permutation_rev.
  split; [exact Hp|]. apply (calculateChainScore_Permutation _ _ Hp).
Defined.

Lemma calculateChainScore_many_redirects_witness :
  (3 < length (List.filter is_redirect_kind hops_four_redirects))%nat /\
  score (calculateChainScore hops_four_redirects) <= 45 /\
  (grade (calculateChainScore hops_four_redirects) = D \/
   grade (calculateChainScore hops_four_redirects) = F).
Proof.
  assert (Hn : (3 < length (List.filter is_redirect_kind hops_four_redirects))%nat)
    by (vm_compute; lia).
  split; [exact Hn|]. apply (calculateChainScore_many_redirects _ Hn).
Defined.


Definition sample_entry (i : string) (p : list RedirectItem) : HistoryEntry :=
  mkEntry i "https://a.com/" "https://www.a.com/home/" p 2000
    (calculateChainScore p) 0
    (Z.of_nat (length (List.filter is_redirect_kind p))) None None (Some false).

Definition history_storage : Storage :=
  mkStorage (Some [sample_entry "e2" hops_302_tail; sample_entry "e1" hops_302])
    None.

Definition favourite_update : EntryUpdates :=
  mkEntryUpdates None None (Some (Some true)).

Lemma deleteHistoryEntry_after_update_witness :
  true = true /\
  snd (deleteHistoryEntry
         (snd (updateHistoryEntry history_storage "e1" favourite_update true true))
         "e1" true true) =
  snd (deleteHistoryEntry history_storage "e1" true true).
Proof.
  split; [reflexivity|].
  apply (deleteHistoryEntry_after_update history_storage "e1" favourite_update
           true true true true). reflexivity.
Defined.
